(** * MOEMS Q&A agent: keyword router, RAG pipeline and evaluators

    A shallow embedding of [src/agent.py], [data/knowledge_base.py],
    [config/settings.py] and the two evaluators of [src/evaluation.py],
    followed by the properties of the specification that concern them.

    Modelling conventions.
    - A Python [str] is a Rocq [string]; a character stands for the code
      point with the same number, so the strings covered are those over
      the code points 0..255.  [Py.lower], [Py.isspace] and [Py.split]
      are [str.lower], [str.isspace] and [str.split()] on that range.
    - A Python float that is a ratio of two small integers is the exact
      rational ([Q]); scores are compared with [==].
    - A raised exception is the [Raise] case of [result].
    - [time.sleep] advances a clock that is threaded through the agent's
      methods together with the agent object itself.
    - The [@traceable] decorator of the tracing service wraps a method
      without changing its arguments or its result; it is not modelled. *)

From Stdlib Require Import Ascii String DecimalString QArith Lqa.
From stdpp Require Import gmap strings list.


(** ** Python built-ins used by the program *)

Module Py.

(** Exceptions the modelled code can raise. *)
Inductive exn : Type :=
| KeyError (key : string)
| ZeroDivisionError.

Inductive result (A : Type) : Type :=
| Ok (a : A)
| Raise (e : exn).
Arguments Ok {A} a.
Arguments Raise {A} e.

Definition bind {A B} (k : A → result B) (r : result A) : result B :=
  match r with
  | Ok a => k a
  | Raise e => Raise e
  end.

#[global] Instance result_ret : MRet result := @Ok.
#[global] Instance result_bind : MBind result := @bind.

(** [c.lower()] for one code point below 256: the letters A-Z and the
    Latin-1 capitals U+00C0..U+00DE (U+00D7, the multiplication sign,
    excepted) move up by 32; every other code point is unchanged. *)
Definition lower_char (c : ascii) : ascii :=
  let n := N_of_ascii c in
  if ((65 <=? n) && (n <=? 90)
      || (192 <=? n) && (n <=? 222) && negb (n =? 215))%N
  then ascii_of_N (n + 32)
  else c.

Fixpoint lower (s : string) : string :=
  match s with
  | EmptyString => EmptyString
  | String c t => String (lower_char c) (lower t)
  end.

(** [c.isspace()] below 256: TAB, LF, VT, FF, CR, the separators
    U+001C..U+001F, the space, NEL (U+0085) and NBSP (U+00A0). *)
Definition isspace (c : ascii) : bool :=
  let n := N_of_ascii c in
  ((9 <=? n) && (n <=? 13) || (28 <=? n) && (n <=? 32)
   || (n =? 133) || (n =? 160))%N.

(** [s.startswith(p)] *)
Fixpoint startswith (p s : string) : bool :=
  match p, s with
  | EmptyString, _ => true
  | String _ _, EmptyString => false
  | String a p', String b s' => Ascii.eqb a b && startswith p' s'
  end.

(** [sub in s] on strings: [sub] occurs in [s] at some position. *)
Fixpoint contains (sub s : string) : bool :=
  startswith sub s ||
  match s with
  | EmptyString => false
  | String _ t => contains sub t
  end.

(** [s.split()]: the maximal runs of non-space characters, in order.
    [w] is the run read so far. *)
Fixpoint split_from (w s : string) : list string :=
  match s with
  | EmptyString => match w with EmptyString => [] | _ => [w] end
  | String c t =>
      if isspace c
      then match w with
           | EmptyString => split_from EmptyString t
           | _ => w :: split_from EmptyString t
           end
      else split_from (w +:+ String c EmptyString) t
  end.

Definition split (s : string) : list string := split_from EmptyString s.

(** [x in l] for a list of strings. *)
Definition mem (x : string) (l : list string) : bool :=
  existsb (String.eqb x) l.

(** [a / b] on numbers. *)
Definition truediv (a b : Q) : result Q :=
  if Qeq_bool b 0 then Raise ZeroDivisionError else Ok (a / b)%Q.

(** [sum(l)]: the items are added to 0 from left to right. *)
Definition sum (l : list Q) : Q := fold_left Qplus l 0%Q.

(** An [int] used as a number. *)
Definition of_nat (n : nat) : Q := inject_Z (Z.of_nat n).

(** [str(n)] for a non-negative [int]. *)
Definition str (n : nat) : string := NilEmpty.string_of_uint (Nat.to_uint n).

End Py.

Notation "sub 'isin' s" := (Py.contains sub s) (at level 65, no associativity).

(** ** config/settings.py *)

Module settings.
Definition AGENT_VERSION : string := "1.0.0".
Definition AGENT_TYPE : string := "rag".
Definition DEFAULT_NUM_DOCS : nat := 3.
Definition SIMULATE_RETRIEVAL_TIME : Q := 3 # 10.
Definition SIMULATE_GENERATION_TIME : Q := 2 # 10.
End settings.

(** ** data/knowledge_base.py *)

(** [MockDocument(content, source, topic)]; [metadata] is the dict
    [{"source": source, "topic": topic}]. *)
Record MockDocument : Type := mkMockDocument {
  page_content : string;
  metadata_source : string;
  metadata_topic : string
}.

(** One entry of the knowledge base: a dict with exactly the keys
    ["answer"], ["sources"] and ["retrieved_docs"]. *)
Record Topic : Type := mkTopic {
  answer : string;
  sources : list string;
  retrieved_docs : list MockDocument
}.

Definition KNOWLEDGE_BASE : gmap string Topic :=
  list_to_map [
    ("what is moems", {|
      answer := "MOEMS stands for Mathematical Olympiads for Elementary and Middle Schools. It is a mathematics competition designed for students in grades 4-8, providing an engaging way for students to develop problem-solving skills through challenging mathematical problems.";
      sources := ["moems_overview"; "moems_introduction"];
      retrieved_docs := [
        mkMockDocument
          "MOEMS stands for Mathematical Olympiads for Elementary and Middle Schools. It is a mathematics competition designed for students in grades 4-8."
          "moems_overview"
          "introduction";
        mkMockDocument
          "MOEMS provides an engaging way for students to develop problem-solving skills through challenging mathematical problems."
          "moems_introduction"
          "introduction"
      ] |});
    ("structure", {|
      answer := "Each MOEMS contest consists of exactly 5 problems. Students have 30 minutes total to complete all 5 problems. Calculators are strictly prohibited during the contest, emphasizing mental math and problem-solving skills.";
      sources := ["moems_structure"; "moems_rules"];
      retrieved_docs := [
        mkMockDocument
          "Each MOEMS contest consists of exactly 5 problems. Students have 30 minutes total to complete all 5 problems."
          "moems_structure"
          "format";
        mkMockDocument
          "Calculators are strictly prohibited during MOEMS contests, emphasizing mental math and problem-solving skills."
          "moems_rules"
          "equipment"
      ] |});
    ("participate", {|
      answer := "Students in grades 4 through 8 can participate in MOEMS. This includes both elementary school students (grades 4-5) and middle school students (grades 6-8). The competition is appropriate for students aged approximately 9-14 years old.";
      sources := ["moems_eligibility"];
      retrieved_docs := [
        mkMockDocument
          "Students in grades 4 through 8 can participate in MOEMS. This includes both elementary and middle school students (grades 4-5 for elementary, 6-8 for middle school). Appropriate for ages 9-14."
          "moems_eligibility"
          "participation"
      ] |});
    ("scored", {|
      answer := "Each problem in a MOEMS contest is worth 1 point. The maximum score for a single contest is 5 points (one for each problem). Teams compete based on cumulative scores across multiple contests throughout the year.";
      sources := ["moems_scoring"];
      retrieved_docs := [
        mkMockDocument
          "Each problem is worth 1 point. Maximum score per contest is 5 points. Teams compete based on cumulative scores across multiple contests."
          "moems_scoring"
          "scoring"
      ] |});
    ("calculator", {|
      answer := "No, calculators are not allowed in MOEMS contests. Calculators are strictly prohibited. The competition emphasizes mental math and problem-solving skills without computational aids.";
      sources := ["moems_rules"];
      retrieved_docs := [
        mkMockDocument
          "Calculators are strictly prohibited in MOEMS contests. The competition emphasizes mental math and problem-solving skills without computational aids."
          "moems_rules"
          "equipment"
      ] |});
    ("example", {|
      answer := "Here's a sample MOEMS algebra problem: If 3x + 7 = 22, what is the value of x? Solution: x = 5. To solve, subtract 7 from both sides to get 3x = 15, then divide by 3 to get x = 5. This type of problem tests students' ability to isolate variables and perform basic algebraic operations.";
      sources := ["moems_examples"];
      retrieved_docs := [
        mkMockDocument
          "Sample Problem: If 3x + 7 = 22, what is x? Solution: Subtract 7 from both sides: 3x = 15, then divide by 3 to get x = 5. Tests variable isolation and basic algebra."
          "moems_examples"
          "problems"
      ] |});
    ("strategies", {|
      answer := "Given the 30-minute time limit for 5 problems, students have an average of 6 minutes per problem. Recommended strategy: (1) Quickly read all 5 problems first (2 minutes), (2) Start with problems that seem easiest (10 minutes for 2-3 problems), (3) Work on medium difficulty problems next (10 minutes), (4) Attempt challenging problems last (8 minutes). Time management is crucial for success in MOEMS competitions.";
      sources := ["moems_strategies"];
      retrieved_docs := [
        mkMockDocument
          "Time management strategy: Average 6 minutes per problem. (1) Read all problems first (2 min), (2) Start with easiest (10 min), (3) Work on medium difficulty (10 min), (4) Attempt hardest last (8 min)."
          "moems_strategies"
          "strategy"
      ] |});
    ("time", {|
      answer := "Students have 30 minutes total to complete all 5 problems in a MOEMS contest. This works out to an average of 6 minutes per problem, though students are free to allocate their time as they see fit across the problems.";
      sources := ["moems_structure"];
      retrieved_docs := [
        mkMockDocument
          "30 minutes total for all 5 problems. Average of 6 minutes per problem, though time can be allocated as needed."
          "moems_structure"
          "format"
      ] |});
    ("3rd grader", {|
      answer := "MOEMS is officially designed for grades 4-8. While the standard eligibility is grades 4-8, exceptional cases such as an advanced 3rd grader may be handled on a case-by-case basis by contacting MOEMS organizers directly. The competition content is generally geared toward the cognitive development of students in the 4-8 grade range.";
      sources := ["moems_eligibility"; "moems_eligibility_exceptions"];
      retrieved_docs := [
        mkMockDocument
          "MOEMS is designed for grades 4-8."
          "moems_eligibility"
          "participation";
        mkMockDocument
          "Standard eligibility is grades 4-8. Exceptional cases such as advanced 3rd graders may be handled case-by-case by contacting organizers. Content is geared toward 4-8 grade cognitive development."
          "moems_eligibility_exceptions"
          "participation"
      ] |})
  ].

(** ** src/agent.py *)

(** The tracing service's client object; nothing of it is used here. *)
Inductive Client : Type := LangSmithClient.

(** The attributes of a [MOEMSAgent] instance. *)
Record MOEMSAgent : Type := mkAgent {
  knowledge_base : gmap string Topic;
  client : option Client
}.

(** What a method call can read or change: the object [self] and the
    time spent in [time.sleep] so far (in seconds). *)
Record World : Type := mkWorld {
  self : MOEMSAgent;
  clock : Q
}.

(** Methods are state transformers that may raise. *)
Definition M (A : Type) : Type := World → Py.result A * World.

Definition ret {A} (a : A) : M A := fun w => (Py.Ok a, w).

Definition raise {A} (e : Py.exn) : M A := fun w => (Py.Raise e, w).

Definition bind {A B} (k : A → M B) (m : M A) : M B :=
  fun w =>
    match m w with
    | (Py.Ok a, w') => k a w'
    | (Py.Raise e, w') => (Py.Raise e, w')
    end.

#[global] Instance M_ret : MRet M := @ret.
#[global] Instance M_bind : MBind M := @bind.

(** [time.sleep(d)] *)
Definition sleep (d : Q) : M unit :=
  fun w => (Py.Ok tt, {| self := self w; clock := (clock w + d)%Q |}).

(** [self.knowledge_base[key]] *)
Definition kb_getitem (key : string) : M Topic :=
  fun w =>
    match knowledge_base (self w) !! key with
    | Some r => (Py.Ok r, w)
    | None => (Py.Raise (Py.KeyError key), w)
    end.

(** [MOEMSAgent.__init__]; [api_key] is [LANGCHAIN_API_KEY], [None] when
    the environment variable is unset.  The [print] calls are left out. *)
Definition init (api_key : option string) : MOEMSAgent :=
  {| knowledge_base := KNOWLEDGE_BASE;
     client := match api_key with
               | Some (String _ _) => Some LangSmithClient
               | _ => None
               end |}.

(** The dict built in the [else] branch of [_find_best_match]. *)
Definition default_response : Topic :=
  {| answer := "Based on the available MOEMS documentation, I can tell you that MOEMS is a mathematics competition for grades 4-8 students. Could you be more specific about what aspect you'd like to know? Topics include: structure, eligibility, scoring, rules, strategies, and examples.";
     sources := ["moems_general"];
     retrieved_docs := [
       mkMockDocument
         "MOEMS general information. Competition for grades 4-8 students."
         "moems_general"
         "general"
     ] |}.

Definition _find_best_match (question : string) : M Topic :=
  let question_lower := Py.lower question in
  if ("what is moems" isin question_lower) || ("what's moems" isin question_lower) then
    kb_getitem "what is moems"
  else if ("structure" isin question_lower) || ("format" isin question_lower) then
    kb_getitem "structure"
  else if ("participate" isin question_lower) || ("who can" isin question_lower)
          || ("eligib" isin question_lower) then
    kb_getitem "participate"
  else if ("scor" isin question_lower) || ("point" isin question_lower) then
    kb_getitem "scored"
  else if "calculator" isin question_lower then
    kb_getitem "calculator"
  else if ("example" isin question_lower) || ("sample problem" isin question_lower) then
    kb_getitem "example"
  else if ("strateg" isin question_lower) || ("time management" isin question_lower) then
    kb_getitem "strategies"
  else if ("time" isin question_lower) || ("how long" isin question_lower)
          || ("minutes" isin question_lower) then
    kb_getitem "time"
  else if ("3rd grade" isin question_lower) || ("third grade" isin question_lower) then
    kb_getitem "3rd grader"
  else
    ret default_response.

(** The dict returned by [_retrieve]. *)
Record Retrieval : Type := mkRetrieval {
  r_sources : list string;
  r_retrieved_docs : list MockDocument
}.

Definition _retrieve (question : string) : M Retrieval :=
  sleep settings.SIMULATE_RETRIEVAL_TIME;;
  result ← _find_best_match question;
  ret {| r_sources := sources result;
         r_retrieved_docs := retrieved_docs result |}.

Definition _generate (question : string) (docs : list MockDocument) : M string :=
  sleep settings.SIMULATE_GENERATION_TIME;;
  result ← _find_best_match question;
  ret (answer result).

(** The dict returned by [query]. *)
Record Response : Type := mkResponse {
  q_question : string;
  q_answer : string;
  q_sources : list string;
  q_num_docs_retrieved : nat;
  q_retrieved_contexts : list string
}.

Definition query (question : string) : M Response :=
  retrieval_result ← _retrieve question;
  answer ← _generate question (r_retrieved_docs retrieval_result);
  ret {| q_question := question;
         q_answer := answer;
         q_sources := r_sources retrieval_result;
         q_num_docs_retrieved := length (r_retrieved_docs retrieval_result);
         q_retrieved_contexts :=
           map page_content (r_retrieved_docs retrieval_result) |}.

(** ** src/evaluation.py *)

(** [run.outputs]: the dict returned by the prediction function; a key
    may be absent. *)
Record Run : Type := mkRun {
  outputs_answer : option string;
  outputs_contexts : option (list string)
}.

(** [example.inputs] and [example.outputs] of a dataset example. *)
Record Example : Type := mkExample {
  inputs_question : option string;
  outputs_reference : option string
}.

(** An f-string; a float formatted with [:.2f] is kept as the number. *)
Inductive Comment : Type :=
| Text (s : string)
| Text2f (s : string) (x : Q).

(** The dict returned by an evaluator. *)
Record Feedback : Type := mkFeedback {
  key : string;
  score : Q;
  comment : Comment
}.

(** The key terms [answer_correctness_evaluator] collects from the
    lowercased reference, in the order of the [append] calls. *)
Definition key_terms_of (reference : string) : list string :=
  let key_terms := [] in
  let key_terms :=
    if "moems" isin reference then key_terms ++ ["moems"] else key_terms in
  let key_terms :=
    if "grade" isin reference then key_terms ++ ["grade"] else key_terms in
  let key_terms :=
    if ("30" isin reference) || ("minutes" isin reference)
    then key_terms ++ ["30"] else key_terms in
  let key_terms :=
    if ("5" isin reference) || ("five" isin reference)
    then (if "problem" isin reference then key_terms ++ ["5"] else key_terms)
    else key_terms in
  let key_terms :=
    if "calculator" isin reference then key_terms ++ ["calculator"] else key_terms in
  let key_terms :=
    if ("prohibit" isin reference) || ("not allowed" isin reference)
    then key_terms ++ ["prohibit"] else key_terms in
  let key_terms :=
    if "point" isin reference then key_terms ++ ["point"] else key_terms in
  let key_terms :=
    if ("strateg" isin reference) || ("time management" isin reference)
    then key_terms ++ ["strateg"] else key_terms in
  key_terms.

(** [sum(1 for term in terms if term in text)] *)
Definition count_in (terms : list string) (text : string) : nat :=
  length (List.filter (fun term => term isin text) terms).

Definition answer_correctness_evaluator (run : Run) (example : Example)
  : Py.result Feedback :=
  let prediction := Py.lower (default "" (outputs_answer run)) in
  let reference := Py.lower (default "" (outputs_reference example)) in
  let key_terms := key_terms_of reference in
  match key_terms with
  | [] =>
      mret {| key := "answer_correctness";
              score := 7 # 10;
              comment := Text "Matched N/A/N/A key terms from reference" |}
  | _ :: _ =>
      let matches := count_in key_terms prediction in
      score ← Py.truediv (Py.of_nat matches) (Py.of_nat (length key_terms));
      mret {| key := "answer_correctness";
              score := score;
              comment := Text ("Matched " +:+ Py.str matches +:+ "/"
                               +:+ Py.str (length key_terms)
                               +:+ " key terms from reference") |}
  end.

Definition STOP_WORDS : list string :=
  ["what"; "when"; "where"; "who"; "how";
   "can"; "does"; "should"; "the"; "is"; "are"].

(** The list comprehension that selects the key words of the question. *)
Definition question_words_of (question : string) : list string :=
  List.filter
    (fun w => (3 <? String.length w)%nat && negb (Py.mem w STOP_WORDS))
    (Py.split question).

(** The [for ctx in contexts] loop; [relevance_scores] is the list
    appended to so far. *)
Fixpoint relevance_loop (question : string) (contexts : list string)
    (relevance_scores : list Q) : Py.result (list Q) :=
  match contexts with
  | [] => mret relevance_scores
  | ctx :: contexts' =>
      let ctx_lower := Py.lower ctx in
      let question_words := question_words_of question in
      match question_words with
      | _ :: _ =>
          let matches := count_in question_words ctx_lower in
          r ← Py.truediv (Py.of_nat matches) (Py.of_nat (length question_words));
          relevance_loop question contexts' (relevance_scores ++ [r])
      | [] =>
          relevance_loop question contexts' (relevance_scores ++ [1 # 2])
      end
  end.

Definition getitem (d : option string) (k : string) : Py.result string :=
  match d with
  | Some v => mret v
  | None => Py.Raise (Py.KeyError k)
  end.

Definition context_relevancy_evaluator (run : Run) (example : Example)
  : Py.result Feedback :=
  question ← getitem (inputs_question example) "question";
  let question := Py.lower question in
  let contexts := default [] (outputs_contexts run) in
  match contexts with
  | [] =>
      mret {| key := "context_relevancy";
              score := 0;
              comment := Text "No contexts retrieved" |}
  | _ :: _ =>
      relevance_scores ← relevance_loop question contexts [];
      avg_relevance ←
        Py.truediv (Py.sum relevance_scores) (Py.of_nat (length relevance_scores));
      mret {| key := "context_relevancy";
              score := avg_relevance;
              comment := Text2f ("Average relevancy across "
                                 +:+ Py.str (length contexts) +:+ " contexts: ")
                                avg_relevance |}
  end.

(** ** The routing table of the specification *)

(** The rule table of the specification's Router/Matcher section: the
    phrases of each rule, OR'ed, and the knowledge-base key the rule
    selects, in the order the rules are tried. *)
Definition RULES : list (list string * string) :=
  [ (["what is moems"; "what's moems"], "what is moems");
    (["structure"; "format"], "structure");
    (["participate"; "who can"; "eligib"], "participate");
    (["scor"; "point"], "scored");
    (["calculator"], "calculator");
    (["example"; "sample problem"], "example");
    (["strateg"; "time management"], "strategies");
    (["time"; "how long"; "minutes"], "time");
    (["3rd grade"; "third grade"], "3rd grader") ].

(** A rule fires when one of its phrases occurs in the lowercased
    question. *)
Definition fires (phrases : list string) (question_lower : string) : bool :=
  existsb (fun p => p isin question_lower) phrases.

(** The key of the first rule that fires, if any. *)
Definition route (question : string) : option string :=
  snd <$> List.find (fun rule => fires (fst rule) (Py.lower question)) RULES.

(** First match wins over [RULES]; the fallback record otherwise. *)
Definition match_by_table (question : string) : M Topic :=
  match route question with
  | Some k => kb_getitem k
  | None => mret default_response
  end.

Definition no_rule_fires (question : string) : Prop :=
  Forall (fun rule => fires (fst rule) (Py.lower question) = false) RULES.

(** The single-match pipeline of the specification's design notes: the
    topic record matched in the retrieve phase is reused by the generate
    phase. *)
Definition query_single_match (question : string) : M Response :=
  sleep settings.SIMULATE_RETRIEVAL_TIME;;
  result ← _find_best_match question;
  sleep settings.SIMULATE_GENERATION_TIME;;
  mret {| q_question := question;
          q_answer := answer result;
          q_sources := sources result;
          q_num_docs_retrieved := length (retrieved_docs result);
          q_retrieved_contexts := map page_content (retrieved_docs result) |}.

(** The world in which a freshly constructed agent is called at time [t]. *)
Definition fresh (api_key : option string) (t : Q) : World :=
  {| self := init api_key; clock := t |}.

(** The world after the two simulated delays of one [query]. *)
Definition after_query (w : World) : World :=
  {| self := self w;
     clock := (clock w + settings.SIMULATE_RETRIEVAL_TIME
               + settings.SIMULATE_GENERATION_TIME)%Q |}.

(** The response assembled from one topic record. *)
Definition response_of (question : string) (r : Topic) : Response :=
  {| q_question := question;
     q_answer := answer r;
     q_sources := sources r;
     q_num_docs_retrieved := length (retrieved_docs r);
     q_retrieved_contexts := map page_content (retrieved_docs r) |}.

(** The record the router selects from [KNOWLEDGE_BASE]. *)
Definition topic_of (question : string) : Topic :=
  match route question with
  | Some k => default default_response (KNOWLEDGE_BASE !! k)
  | None => default_response
  end.

(** The data-model invariant of a topic record: an answer, at least one
    source and at least one snippet. *)
Definition well_formed (r : Topic) : bool :=
  negb (String.eqb (answer r) "")
  && (0 <? length (sources r))%nat
  && (0 <? length (retrieved_docs r))%nat.

(** A score within the contract's range. *)
Definition in_unit (x : Q) : Prop := (0 <= x)%Q ∧ (x <= 1)%Q.

(** ** More built-ins: [str.strip] and [input] *)

Module Str.

(** [s.lstrip()] *)
Fixpoint lstrip (s : string) : string :=
  match s with
  | EmptyString => EmptyString
  | String c t => if Py.isspace c then lstrip t else s
  end.

(** [s.rstrip()] *)
Fixpoint rstrip (s : string) : string :=
  match s with
  | EmptyString => EmptyString
  | String c t =>
      match rstrip t with
      | EmptyString => if Py.isspace c then EmptyString else String c EmptyString
      | t' => String c t'
      end
  end.

(** [s.strip()] *)
Definition strip (s : string) : string := rstrip (lstrip s).

(** What one call of [input()] yields: a line typed by the user, or a
    [KeyboardInterrupt] raised while waiting.  Standard input is the list
    of these events; at its end [input()] raises [EOFError]. *)
Inductive stdin_event : Type :=
| Line (s : string)
| KeyboardInterrupt.

End Str.

(** ** More of data/knowledge_base.py *)

(** An item of [EVALUATION_EXAMPLES]: the dict with the keys
    ["question"] and ["reference"]. *)
Record EvaluationExample : Type := mkEvaluationExample {
  ex_question : string;
  ex_reference : string
}.

Definition EVALUATION_EXAMPLES : list EvaluationExample := [
  {| ex_question := "What is MOEMS?";
     ex_reference := "MOEMS stands for Mathematical Olympiads for Elementary and Middle Schools, a mathematics competition for students in grades 4-8 that helps develop problem-solving skills." |};
  {| ex_question := "What is the structure of a MOEMS contest?";
     ex_reference := "Each MOEMS contest consists of 5 problems to be completed in 30 minutes total, with calculators prohibited." |};
  {| ex_question := "Who can participate in MOEMS?";
     ex_reference := "Students in grades 4-8 (elementary and middle school) can participate. Exceptional 3rd graders may participate on a case-by-case basis." |};
  {| ex_question := "How is MOEMS scored?";
     ex_reference := "Each problem is worth 1 point, for a maximum of 5 points per contest. Teams compete based on cumulative scores." |};
  {| ex_question := "Are calculators allowed in MOEMS?";
     ex_reference := "No, calculators are strictly prohibited in MOEMS contests to emphasize mental math and problem-solving skills." |};
  {| ex_question := "How much time do students have for each problem?";
     ex_reference := "Students have 30 minutes total for 5 problems, averaging 6 minutes per problem, though they can allocate time as needed." |};
  {| ex_question := "What strategies should students use for time management?";
     ex_reference := "Read all problems first (2 min), start with easiest (10 min), work on medium difficulty (10 min), attempt hardest last (8 min)." |};
  {| ex_question := "Can a 3rd grader participate in MOEMS?";
     ex_reference := "MOEMS is designed for grades 4-8, but exceptional 3rd graders may participate on a case-by-case basis by contacting organizers." |}
].

(** ** More of src/evaluation.py *)

(** The dataset example [create_evaluation_dataset] creates from an item:
    [inputs={"question": ...}], [outputs={"reference": ...}]. *)
Definition create_example (ex : EvaluationExample) : Example :=
  {| inputs_question := Some (ex_question ex);
     outputs_reference := Some (ex_reference ex) |}.

(** A computation that does not touch the world. *)
Definition lift {A} (r : Py.result A) : M A := fun w => (r, w).

(** [predict], the function [run_evaluations] hands to the evaluation
    service; [inputs] is the value stored under ["question"], if any. *)
Definition predict (inputs : option string) : M Run :=
  question ← lift (getitem inputs "question");
  result ← query question;
  mret {| outputs_answer := Some (q_answer result);
          outputs_contexts := Some (q_retrieved_contexts result) |}.

(** ** src/utils.py *)

(** [confirm_action(prompt, default)]; [event] is what [input] yields
    (the end of input, where [input] raises [EOFError] and the function
    does not catch it, is not among the events).  The prompt is only
    printed. *)
Definition confirm_action (prompt : string) (default : bool)
    (event : Str.stdin_event) : bool :=
  match event with
  | Str.Line line =>
      let response := Py.lower (Str.strip line) in
      match response with
      | EmptyString => default
      | _ => Py.mem response ["y"; "yes"]
      end
  | Str.KeyboardInterrupt => false
  end.

(** ** scripts/run_agent.py *)

(** The [while True] loop of [run_interactive_mode].  [stdin] is what is
    left of standard input and [query_count] the counter; the result is
    the counter at the [break], with the world and the input left, or
    [None] when [fuel] iterations did not reach a [break].  At the end
    of input [input()] raises [EOFError], which the [except Exception]
    clause catches, and the loop goes on.  Printing is left out. *)
Fixpoint interactive_loop (fuel : nat) (stdin : list Str.stdin_event)
    (query_count : nat) (w : World)
  : option (nat * World * list Str.stdin_event) :=
  match fuel with
  | O => None
  | S fuel' =>
      match stdin with
      | [] => interactive_loop fuel' [] query_count w
      | Str.KeyboardInterrupt :: stdin' => Some (query_count, w, stdin')
      | Str.Line line :: stdin' =>
          let user_question := Str.strip line in
          match user_question with
          | EmptyString => interactive_loop fuel' stdin' query_count w
          | _ =>
              if Py.mem (Py.lower user_question) ["quit"; "exit"; "q"] then
                Some (query_count, w, stdin')
              else if Py.mem (Py.lower user_question) ["eval"; "evaluation"] then
                Some (query_count, w, stdin')
              else
                match query user_question w with
                | (Py.Ok result, w') =>
                    interactive_loop fuel' stdin' (S query_count) w'
                | (Py.Raise e, w') =>
                    interactive_loop fuel' stdin' query_count w'
                end
          end
      end
  end.

Definition run_interactive_mode (fuel : nat) (stdin : list Str.stdin_event)
    (w : World) : option (nat * World * list Str.stdin_event) :=
  interactive_loop fuel stdin 0 w.

(** ** tests/test_agent.py *)

(** Each test of [TestMOEMSAgent] as the conjunction of its assertions,
    run in the world [w] that [setup_method] leaves. *)
Module TestMOEMSAgent.

Definition asserts (question : string) (check : Response → bool) (w : World) : bool :=
  match query question w with
  | (Py.Ok result, _) => check result
  | (Py.Raise _, _) => false
  end.

Definition nonempty (s : string) : bool := (0 <? String.length s)%nat.

Definition test_basic_query : World → bool :=
  asserts "What is MOEMS?" (fun result =>
    nonempty (q_answer result) && (0 <? q_num_docs_retrieved result)%nat).

Definition test_moems_definition : World → bool :=
  asserts "What is MOEMS?" (fun result =>
    let answer := Py.lower (q_answer result) in
    ("moems" isin answer)
    && (("mathematical olympiad" isin answer)
        || ("mathematics competition" isin answer))).

Definition test_structure_query : World → bool :=
  asserts "What is the structure of a MOEMS contest?" (fun result =>
    let answer := Py.lower (q_answer result) in
    (("5" isin answer) || ("five" isin answer))
    && ("problem" isin answer)
    && (("30" isin answer) || ("minutes" isin answer))).

Definition test_calculator_query : World → bool :=
  asserts "Are calculators allowed in MOEMS?" (fun result =>
    let answer := Py.lower (q_answer result) in
    ("calculator" isin answer)
    && (("no" isin answer) || ("not" isin answer) || ("prohibit" isin answer))).

Definition test_scoring_query : World → bool :=
  asserts "How is MOEMS scored?" (fun result =>
    let answer := Py.lower (q_answer result) in
    ("point" isin answer) && (("5" isin answer) || ("five" isin answer))).

Definition test_eligibility_query : World → bool :=
  asserts "Who can participate in MOEMS?" (fun result =>
    let answer := Py.lower (q_answer result) in
    ("grade" isin answer) && (("4" isin answer) || ("8" isin answer))).

Definition test_third_grader_query : World → bool :=
  asserts "Can a 3rd grader participate?" (fun result =>
    let answer := Py.lower (q_answer result) in
    ("3rd" isin answer) || ("third" isin answer) || ("grade" isin answer)).

Definition test_unknown_query : World → bool :=
  asserts "What is the weather today?" (fun result =>
    nonempty (q_answer result)).

Definition test_sources_returned : World → bool :=
  asserts "What is MOEMS?" (fun result =>
    (0 <? length (q_sources result))%nat).

Definition test_contexts_returned : World → bool :=
  asserts "What is MOEMS?" (fun result =>
    (0 <? length (q_retrieved_contexts result))%nat).

Definition all_tests : list (World → bool) :=
  [ test_basic_query; test_moems_definition; test_structure_query;
    test_calculator_query; test_scoring_query; test_eligibility_query;
    test_third_grader_query; test_unknown_query; test_sources_returned;
    test_contexts_returned ].

End TestMOEMSAgent.

(** ** Vocabulary for the statements about the scripts *)

(** The string consists of whitespace only. *)
Fixpoint all_space (s : string) : bool :=
  match s with
  | EmptyString => true
  | String c t => Py.isspace c && all_space t
  end.

(** The line, once stripped and lowercased, is one of the words on which
    [run_interactive_mode] leaves its loop. *)
Definition is_command (line : string) : bool :=
  Py.mem (Py.lower (Str.strip line)) ["quit"; "exit"; "q"]
  || Py.mem (Py.lower (Str.strip line)) ["eval"; "evaluation"].

(** The lines that are not blank: the ones passed to the agent. *)
Definition asked (lines : list string) : list string :=
  List.filter (fun line => negb (String.eqb (Str.strip line) "")) lines.


(** ** Positions in the rule chain *)

(** The number of rules of [rules] that are tried and fail before one
    fires on the lowercased question (the number of rules if none does). *)
Fixpoint first_firing (rules : list (list string * string))
    (question_lower : string) : nat :=
  match rules with
  | [] => O
  | rule :: rules' =>
      if fires (fst rule) question_lower then O
      else S (first_firing rules' question_lower)
  end.

Definition rule_index (question : string) : nat :=
  first_firing RULES (Py.lower question).

(** The record of the branch at position [i] of the chain in
    [_find_best_match]; position 9 and beyond is the [else] branch. *)
Definition branch_record (i : nat) : Topic :=
  match RULES !! i with
  | Some rule => default default_response (KNOWLEDGE_BASE !! snd rule)
  | None => default_response
  end.

(** The sources of a record are those of its documents' metadata, and
    there are one or two documents. *)
Definition sources_consistent (r : Topic) : bool :=
  bool_decide (sources r = map metadata_source (retrieved_docs r))
  && ((length (retrieved_docs r) =? 1)%nat
      || (length (retrieved_docs r) =? 2)%nat).

(** The eight key terms [answer_correctness_evaluator] can collect, in
    the order of its [if] statements. *)
Definition MARKERS : list string :=
  ["moems"; "grade"; "30"; "5"; "calculator"; "prohibit"; "point"; "strateg"].

(** ** The router *)

Ltac case_phrases :=
  repeat match goal with
    | |- context [Py.contains ?p ?s] =>
        destruct (Py.contains p s); cbn [orb]; try reflexivity
    end.

Lemma find_best_match_table question w :
  _find_best_match question w = match_by_table question w.
Proof.
  unfold _find_best_match, match_by_table, route, RULES, fires.
  cbn [List.find existsb fst snd fmap option_fmap option_map].
  case_phrases.
Qed.

(** The router reads [self.knowledge_base] and nothing else, and leaves
    the world as it found it. *)
Lemma find_best_match_pure question w :
  _find_best_match question w
  = (fst (_find_best_match question {| self := self w; clock := 0 |}), w).
Proof.
  rewrite !find_best_match_table. unfold match_by_table.
  destruct (route question) as [k|]; [|reflexivity].
  unfold kb_getitem; cbn [self].
  destruct (knowledge_base (self w) !! k); reflexivity.
Qed.

Lemma route_key question k :
  route question = Some k → In k (map snd RULES).
Proof.
  unfold route. destruct (List.find _ RULES) as [rule|] eqn:E; [|discriminate].
  intros [= <-]. apply find_some in E as [H _]. now apply in_map.
Qed.

Lemma route_none question :
  route question = None ↔ no_rule_fires question.
Proof.
  unfold route, no_rule_fires. rewrite Forall_forall. split.
  - destruct (List.find _ RULES) eqn:E; [discriminate|]. intros _ rule Hin%list_elem_of_In.
    apply (find_none _ _ E) in Hin. exact Hin.
  - intros H. destruct (List.find _ RULES) as [rule|] eqn:E; [|reflexivity].
    apply find_some in E as [Hin Hf]. apply list_elem_of_In, H in Hin. congruence.
Qed.

Lemma knowledge_base_keys :
  Forall (fun k => is_Some (KNOWLEDGE_BASE !! k)) (map snd RULES).
Proof.
  unfold RULES; cbn [map snd].
  repeat constructor; vm_compute; eexists; reflexivity.
Qed.

Lemma topic_of_cases question :
  match route question with
  | Some k => KNOWLEDGE_BASE !! k = Some (topic_of question)
  | None => topic_of question = default_response
  end.
Proof.
  unfold topic_of. destruct (route question) as [k|] eqn:E; [|reflexivity].
  apply route_key in E. pose proof knowledge_base_keys as H.
  rewrite Forall_forall in H. apply list_elem_of_In, H in E as [r ->]. reflexivity.
Qed.

Lemma find_best_match_fresh api_key t question :
  _find_best_match question (fresh api_key t)
  = (Py.Ok (topic_of question), fresh api_key t).
Proof.
  rewrite find_best_match_table. unfold match_by_table.
  pose proof (topic_of_cases question) as H.
  destruct (route question) as [k|].
  - unfold kb_getitem, fresh, init; cbn [self knowledge_base]. now rewrite H.
  - now rewrite H.
Qed.

(** [query] in terms of one run of the router. *)
Lemma query_unfold question w :
  query question w
  = match fst (_find_best_match question {| self := self w; clock := 0 |}) with
    | Py.Ok r => (Py.Ok (response_of question r), after_query w)
    | Py.Raise e =>
        (Py.Raise e,
         {| self := self w;
            clock := (clock w + settings.SIMULATE_RETRIEVAL_TIME)%Q |})
    end.
Proof.
  unfold query, _retrieve, _generate, mbind, M_bind, bind, mret, M_ret, ret.
  unfold sleep at 1. cbn [self clock].
  rewrite (find_best_match_pure question
             {| self := self w; clock := _ |}); cbn [self].
  destruct (fst (_find_best_match question _)) as [r|e] eqn:E; [|reflexivity].
  unfold sleep. cbn [self clock].
  rewrite (find_best_match_pure question
             {| self := self w; clock := _ |}); cbn [self].
  rewrite E. reflexivity.
Qed.

Lemma query_single_match_unfold question w :
  query_single_match question w
  = match fst (_find_best_match question {| self := self w; clock := 0 |}) with
    | Py.Ok r => (Py.Ok (response_of question r), after_query w)
    | Py.Raise e =>
        (Py.Raise e,
         {| self := self w;
            clock := (clock w + settings.SIMULATE_RETRIEVAL_TIME)%Q |})
    end.
Proof.
  unfold query_single_match, mbind, M_bind, bind, mret, M_ret, ret.
  unfold sleep at 1. cbn [self clock].
  rewrite (find_best_match_pure question
             {| self := self w; clock := _ |}); cbn [self].
  destruct (fst (_find_best_match question _)) as [r|e] eqn:E; reflexivity.
Qed.

Lemma query_fresh api_key t question :
  query question (fresh api_key t)
  = (Py.Ok (response_of question (topic_of question)),
     after_query (fresh api_key t)).
Proof.
  rewrite query_unfold.
  change {| self := self (fresh api_key t); clock := 0 |} with (fresh api_key 0).
  now rewrite find_best_match_fresh.
Qed.

Lemma topic_of_well_formed question : well_formed (topic_of question) = true.
Proof.
  unfold topic_of. destruct (route question) as [k|] eqn:E; [|reflexivity].
  apply route_key in E. unfold RULES in E; cbn [map snd In] in E.
  repeat (destruct E as [<-|E]; [vm_compute; reflexivity|]). destruct E.
Qed.

(** ** Claims about the router and the pipeline *)

(** C1, as stated, fails: a question can contain "calculator" and still
    be routed by an earlier rule to a record whose answer does not
    mention calculators. *)
Lemma C1_calculator_counterexample :
  ¬ (∀ question : string,
       "calculator" isin Py.lower question = true →
       ∀ resp w', query question (fresh None 0) = (Py.Ok resp, w') →
                  "calculator" isin Py.lower (q_answer resp) = true).
Proof.
  intros H.
  specialize (H "What is MOEMS and are calculators allowed?" eq_refl
                _ _ (query_fresh None 0 _)).
  vm_compute in H. discriminate H.
Qed.

(** C1 (amended): for a question that contains "calculator"
    (case-insensitively), [query] returns, and its answer contains
    "calculator" (case-insensitively) exactly when the first rule that
    fires is rule 2 ([structure]) or rule 5 ([calculator]): rule 1 does
    not fire, and either rule 2 fires or neither rule 3 nor rule 4 does. *)
Theorem C1_calculator_answer api_key t question :
  "calculator" isin Py.lower question = true →
  ∃ resp w',
    query question (fresh api_key t) = (Py.Ok resp, w') ∧
    "calculator" isin Py.lower (q_answer resp)
    = negb (fires ["what is moems"; "what's moems"] (Py.lower question))
      && (fires ["structure"; "format"] (Py.lower question)
          || negb (fires ["participate"; "who can"; "eligib"] (Py.lower question)
                   || fires ["scor"; "point"] (Py.lower question))).
Proof.
  intros Hcalc. eexists _, _. split; [apply query_fresh|].
  unfold response_of, topic_of, route, RULES, fires; cbn [q_answer].
  cbn [List.find existsb fst snd fmap option_fmap option_map].
  rewrite Hcalc.
  repeat match goal with
    | |- context [Py.contains ?p (Py.lower question)] =>
        destruct (Py.contains p (Py.lower question)); cbn [orb negb andb]
    end;
  vm_compute; reflexivity.
Qed.

Lemma C1_calculator_answer_witness :
  ∃ resp w',
    query "Are calculators allowed in MOEMS?" (fresh None 0) = (Py.Ok resp, w') ∧
    "calculator" isin Py.lower (q_answer resp) = true.
Proof.
  destruct (C1_calculator_answer None 0 "Are calculators allowed in MOEMS?" eq_refl)
    as (resp & w' & Hq & Ha).
  exists resp, w'. split; [exact Hq|]. rewrite Ha. vm_compute. reflexivity.
Defined.

(** C2: for every string, the empty one included, [_find_best_match]
    returns a topic record without raising and leaves the world as it
    was: a record of the knowledge base, or the fallback record, and the
    fallback record when no rule fires; [query] returns a complete
    response: the question itself, a non-empty answer, at least one
    source and one snippet, and a count equal to the number of snippets. *)
Theorem C2_match_and_query_total api_key t question :
  (∃ r,
     _find_best_match question (fresh api_key t) = (Py.Ok r, fresh api_key t) ∧
     (r = default_response ∨ ∃ k, KNOWLEDGE_BASE !! k = Some r) ∧
     (route question = None → r = default_response) ∧
     well_formed r = true) ∧
  (∃ resp w',
     query question (fresh api_key t) = (Py.Ok resp, w') ∧
     q_question resp = question ∧
     q_answer resp ≠ "" ∧
     q_sources resp ≠ [] ∧
     q_num_docs_retrieved resp = length (q_retrieved_contexts resp) ∧
     (0 < q_num_docs_retrieved resp)%nat) ∧
  _find_best_match "" (fresh api_key t) = (Py.Ok default_response, fresh api_key t) ∧
  fst (query "" (fresh api_key t)) = Py.Ok (response_of "" default_response).
Proof.
  pose proof (topic_of_well_formed question) as Hwf.
  pose proof (topic_of_cases question) as Hc.
  split; [|split; [|split]].
  - exists (topic_of question). split; [apply find_best_match_fresh|].
    split; [|split; [|exact Hwf]].
    + destruct (route question) as [k|]; [right; eauto|left; exact Hc].
    + intros E. rewrite E in Hc. exact Hc.
  - eexists _, _. split; [apply query_fresh|].
    unfold well_formed in Hwf.
    apply andb_prop in Hwf as [Hwf Hd]. apply andb_prop in Hwf as [Ha Hs].
    cbn [response_of q_question q_answer q_sources q_num_docs_retrieved
           q_retrieved_contexts].
    apply Nat.ltb_lt in Hs, Hd.
    split; [reflexivity|]. split; [|split; [|split]].
    + intros E. rewrite E in Ha. discriminate Ha.
    + intros E. rewrite E in Hs. cbn in Hs. lia.
    + now rewrite length_map.
    + exact Hd.
  - apply (find_best_match_fresh api_key t "").
  - now rewrite query_fresh.
Qed.

(** C3: the answer and the sources of [query]'s response are those of
    the record the router selects, so the pipeline that matches twice
    and the pipeline that matches once and reuses the record are the
    same function of question and world, whatever the knowledge base. *)
Theorem C3_double_match_is_single_match :
  (∀ question w, query question w = query_single_match question w) ∧
  (∀ api_key t question,
     ∃ r resp w',
       _find_best_match question (fresh api_key t) = (Py.Ok r, fresh api_key t) ∧
       query question (fresh api_key t) = (Py.Ok resp, w') ∧
       q_answer resp = answer r ∧
       q_sources resp = sources r ∧
       q_retrieved_contexts resp = map page_content (retrieved_docs r)).
Proof.
  split.
  - intros question w. now rewrite query_unfold, query_single_match_unfold.
  - intros api_key t question. eexists _, _, _.
    split; [apply find_best_match_fresh|]. split; [apply query_fresh|].
    repeat split.
Qed.

(** C4: the router is first-match-wins over the nine rules in the order
    of the rule table; "What is the scoring structure?" satisfies the
    predicates of rule 2 and of rule 4, and is answered with the record
    stored under [structure], which is not the one under [scored]. *)
Theorem C4_rule_precedence :
  (∀ question w, _find_best_match question w = match_by_table question w) ∧
  fires ["structure"; "format"] (Py.lower "What is the scoring structure?") = true ∧
  fires ["scor"; "point"] (Py.lower "What is the scoring structure?") = true ∧
  (∀ api_key t,
     ∃ r,
       KNOWLEDGE_BASE !! "structure" = Some r ∧
       KNOWLEDGE_BASE !! "scored" ≠ Some r ∧
       _find_best_match "What is the scoring structure?" (fresh api_key t)
       = (Py.Ok r, fresh api_key t)).
Proof.
  split; [exact find_best_match_table|].
  split; [reflexivity|]. split; [reflexivity|].
  intros api_key t. exists (topic_of "What is the scoring structure?").
  split; [vm_compute; reflexivity|].
  split; [vm_compute; discriminate|].
  apply find_best_match_fresh.
Qed.

(** C5: two successive calls of [query] with the same question return
    the same response (answer, sources and contexts in particular); the
    agent object is the same before, between and after the calls, only
    the clock advances; and the response does not depend on the API key
    the agent was built with nor on the time of the call. *)
Theorem C5_query_idempotent api_key t question :
  ∃ resp1 resp2 w1 w2,
    query question (fresh api_key t) = (Py.Ok resp1, w1) ∧
    query question w1 = (Py.Ok resp2, w2) ∧
    q_answer resp1 = q_answer resp2 ∧
    q_sources resp1 = q_sources resp2 ∧
    q_retrieved_contexts resp1 = q_retrieved_contexts resp2 ∧
    self w1 = self (fresh api_key t) ∧
    self w2 = self (fresh api_key t) ∧
    knowledge_base (self w2) = KNOWLEDGE_BASE ∧
    (∀ api_key' t', fst (query question (fresh api_key' t')) = Py.Ok resp1).
Proof.
  eexists _, _, _, _.
  split; [apply query_fresh|].
  split.
  { change (after_query (fresh api_key t))
      with (fresh api_key (t + settings.SIMULATE_RETRIEVAL_TIME
                           + settings.SIMULATE_GENERATION_TIME)%Q).
    apply query_fresh. }
  repeat split. intros api_key' t'. now rewrite query_fresh.
Qed.

(** C8: when none of the nine rules fires, [query] returns the fallback
    response: the fixed answer, which mentions "grades 4-8" and names
    the topics structure, eligibility, scoring, rules, strategies and
    examples, the single source "moems_general" and one snippet. *)
Theorem C8_fallback_response api_key t question :
  no_rule_fires question →
  ∃ resp w',
    query question (fresh api_key t) = (Py.Ok resp, w') ∧
    resp = response_of question default_response ∧
    "grades 4-8" isin q_answer resp = true ∧
    Forall (fun topic => topic isin q_answer resp = true)
      ["structure"; "eligibility"; "scoring"; "rules"; "strategies"; "examples"] ∧
    q_sources resp = ["moems_general"] ∧
    q_num_docs_retrieved resp = 1%nat ∧
    length (q_retrieved_contexts resp) = 1%nat.
Proof.
  intros Hno. apply route_none in Hno.
  pose proof (topic_of_cases question) as Hc. rewrite Hno in Hc.
  eexists _, _. split; [apply query_fresh|]. rewrite Hc.
  split; [reflexivity|]. split; [vm_compute; reflexivity|].
  split; [|repeat split].
  repeat constructor.
Qed.

Lemma C8_fallback_response_witness :
  no_rule_fires "What is the weather today?" ∧
  ∃ resp w',
    query "What is the weather today?" (fresh None 0) = (Py.Ok resp, w') ∧
    q_sources resp = ["moems_general"].
Proof.
  assert (Hno : no_rule_fires "What is the weather today?").
  { unfold no_rule_fires, RULES. repeat constructor. }
  split; [exact Hno|].
  destruct (C8_fallback_response None 0 _ Hno)
    as (resp & w' & Hq & _ & _ & _ & Hs & _).
  exists resp, w'. split; [exact Hq|exact Hs].
Defined.

(** ** The evaluators *)

Lemma count_in_le terms text : (count_in terms text <= length terms)%nat.
Proof.
  unfold count_in. induction terms as [|x terms IH]; cbn; [lia|].
  destruct (x isin text); cbn; lia.
Qed.

Lemma count_in_none terms text :
  Forall (fun term => term isin text = false) terms → count_in terms text = 0%nat.
Proof.
  unfold count_in. induction 1 as [|x terms Hx _ IH]; cbn; [reflexivity|].
  now rewrite Hx.
Qed.

Lemma of_nat_pos n : (0 < n)%nat → (0 < Py.of_nat n)%Q.
Proof.
  intros H. unfold Py.of_nat. change 0%Q with (inject_Z 0).
  rewrite <- Zlt_Qlt. lia.
Qed.

Lemma of_nat_le m n : (m <= n)%nat → (Py.of_nat m <= Py.of_nat n)%Q.
Proof. intros H. unfold Py.of_nat. rewrite <- Zle_Qle. lia. Qed.

Lemma of_nat_S n : (Py.of_nat (S n) == Py.of_nat n + 1)%Q.
Proof.
  unfold Py.of_nat. rewrite Nat2Z.inj_succ, <- Z.add_1_r, inject_Z_plus.
  reflexivity.
Qed.

(** Division by a positive number does not raise. *)
Lemma truediv_pos a b :
  (0 < b)%Q → Py.truediv a b = Py.Ok (a / b)%Q.
Proof.
  intros Hb. unfold Py.truediv.
  destruct (Qeq_bool b 0) eqn:E; [|reflexivity].
  apply Qeq_bool_eq in E. rewrite E in Hb. now apply Qlt_irrefl in Hb.
Qed.

Lemma ratio_in_unit a b :
  (0 <= a)%Q → (a <= b)%Q → (0 < b)%Q → in_unit (a / b).
Proof.
  intros Ha Hab Hb. split.
  - apply Qle_shift_div_l; [exact Hb|]. lra.
  - apply Qle_shift_div_r; [exact Hb|]. lra.
Qed.

Lemma truediv_counts m n :
  (m <= n)%nat → (0 < n)%nat →
  ∃ r, Py.truediv (Py.of_nat m) (Py.of_nat n) = Py.Ok r ∧ in_unit r
       ∧ (m = 0%nat → r == 0)%Q ∧ (m = n → r == 1)%Q.
Proof.
  intros Hmn Hn. pose proof (of_nat_pos n Hn) as Hpos.
  exists (Py.of_nat m / Py.of_nat n)%Q. split; [now apply truediv_pos|].
  split; [|split].
  - apply ratio_in_unit; [|now apply of_nat_le|exact Hpos].
    change 0%Q with (Py.of_nat 0). apply of_nat_le. lia.
  - intros ->. reflexivity.
  - intros ->. field. lra.
Qed.

Lemma sum_from_bounds l : ∀ a,
  Forall in_unit l →
  (a <= fold_left Qplus l a)%Q ∧
  (fold_left Qplus l a <= a + Py.of_nat (length l))%Q.
Proof.
  induction l as [|x l IH]; intros a Hl.
  - cbn. change (Py.of_nat 0) with 0%Q. lra.
  - inversion Hl as [|? ? [Hx0 Hx1] Hl']; subst.
    destruct (IH (a + x)%Q Hl') as [Hlo Hhi].
    cbn [fold_left length]. pose proof (of_nat_S (length l)) as HS. lra.
Qed.

Lemma mean_in_unit l :
  Forall in_unit l → l ≠ [] →
  ∃ x, Py.truediv (Py.sum l) (Py.of_nat (length l)) = Py.Ok x ∧ in_unit x.
Proof.
  intros Hl Hne.
  assert (Hn : (0 < length l)%nat) by (destruct l; [congruence|cbn; lia]).
  pose proof (of_nat_pos _ Hn) as Hpos.
  destruct (sum_from_bounds l 0 Hl) as [Hlo Hhi].
  eexists. split; [now apply truediv_pos|].
  apply ratio_in_unit; [exact Hlo| |exact Hpos]. unfold Py.sum. lra.
Qed.

Lemma sum_zero l : Forall (fun r => r == 0)%Q l → (Py.sum l == 0)%Q.
Proof.
  unfold Py.sum. generalize 0%Q at 2 3 as a.
  induction l as [|x l IH]; intros a Hl; cbn; [reflexivity|].
  inversion Hl as [|? ? Hx Hl']; subst.
  rewrite (IH _ Hl'). lra.
Qed.

(** The loop appends one relevance per context, each within [0,1]. *)
Lemma relevance_loop_in_unit question contexts : ∀ relevance_scores,
  Forall in_unit relevance_scores →
  ∃ l, relevance_loop question contexts relevance_scores = Py.Ok l
       ∧ Forall in_unit l
       ∧ length l = (length relevance_scores + length contexts)%nat.
Proof.
  induction contexts as [|ctx contexts IH]; intros acc Hacc.
  - exists acc. cbn. split; [reflexivity|]. split; [exact Hacc|lia].
  - cbn [relevance_loop].
    destruct (question_words_of question) as [|w ws] eqn:E.
    + destruct (IH (acc ++ [1 # 2])) as (l & Hl & Hu & Hlen).
      { apply Forall_app. split; [exact Hacc|].
        constructor; [unfold in_unit; lra|constructor]. }
      exists l. split; [exact Hl|]. split; [exact Hu|].
      rewrite Hlen, length_app. cbn. lia.
    + destruct (truediv_counts (count_in (w :: ws) (Py.lower ctx)) (length (w :: ws)))
        as (r & Hr & Hru & _); [apply count_in_le|cbn; lia|].
      rewrite Hr. cbn [mbind Py.result_bind Py.bind].
      destruct (IH (acc ++ [r])) as (l & Hl & Hu & Hlen).
      { apply Forall_app. split; [exact Hacc|].
        constructor; [exact Hru|constructor]. }
      exists l. split; [exact Hl|]. split; [exact Hu|].
      rewrite Hlen, length_app. cbn. lia.
Qed.

(** With key words none of which occurs in any context, every relevance
    the loop appends is 0. *)
Lemma relevance_loop_zero question contexts : ∀ relevance_scores,
  question_words_of question ≠ [] →
  Forall (fun ctx => Forall (fun w => w isin Py.lower ctx = false)
                       (question_words_of question)) contexts →
  Forall (fun r => r == 0)%Q relevance_scores →
  ∃ l, relevance_loop question contexts relevance_scores = Py.Ok l
       ∧ Forall (fun r => r == 0)%Q l
       ∧ length l = (length relevance_scores + length contexts)%nat.
Proof.
  intros acc Hne Hctx. revert acc.
  induction Hctx as [|ctx contexts Hc _ IH]; intros acc Hacc.
  - exists acc. cbn. split; [reflexivity|]. split; [exact Hacc|lia].
  - cbn [relevance_loop].
    destruct (question_words_of question) as [|w ws] eqn:E; [congruence|].
    destruct (truediv_counts (count_in (w :: ws) (Py.lower ctx)) (length (w :: ws)))
      as (r & Hr & _ & Hr0 & _); [apply count_in_le|cbn; lia|].
    rewrite Hr. cbn [mbind Py.result_bind Py.bind].
    destruct (IH (acc ++ [r])) as (l & Hl & Hz & Hlen).
    { apply Forall_app. split; [exact Hacc|].
      constructor; [|constructor].
      apply Hr0, count_in_none. exact Hc. }
    exists l. split; [exact Hl|]. split; [exact Hz|].
    rewrite Hlen, length_app. cbn. lia.
Qed.

Lemma in_append_if (b : bool) (x y : string) l :
  In x l → In x (if b then l ++ [y] else l).
Proof. intros H. destruct b; [apply in_or_app; left|]; exact H. Qed.

Lemma in_append_if2 (a b : bool) (x y : string) l :
  In x l → In x (if a then (if b then l ++ [y] else l) else l).
Proof. intros H. destruct a; [apply in_append_if|]; exact H. Qed.

Lemma answer_correctness_score run example :
  ∃ fb, answer_correctness_evaluator run example = Py.Ok fb ∧
        match key_terms_of (Py.lower (default "" (outputs_reference example))) with
        | [] => (score fb == 7 # 10)%Q
        | key_terms =>
            let matches :=
              count_in key_terms (Py.lower (default "" (outputs_answer run))) in
            in_unit (score fb) ∧
            (matches = 0%nat → score fb == 0)%Q ∧
            (matches = length key_terms → score fb == 1)%Q
        end.
Proof.
  unfold answer_correctness_evaluator.
  destruct (key_terms_of _) as [|k ks] eqn:E.
  - eexists. split; reflexivity.
  - destruct (truediv_counts
                (count_in (k :: ks) (Py.lower (default "" (outputs_answer run))))
                (length (k :: ks)))
      as (r & Hr & Hu & H0 & H1); [apply count_in_le|cbn; lia|].
    rewrite Hr. cbn [mbind Py.result_bind Py.bind mret Py.result_ret].
    eexists. split; [reflexivity|]. cbn [score]. auto.
Qed.

(** ** Claims about the evaluators *)

(** C6: for the empty answer and the reference "MOEMS is for grades
    4-8, 5 problems, 30 minutes, calculators prohibited", the evaluator
    extracts six key terms (at least five), none of which occurs in the
    answer, and returns the score 0. *)
Theorem C6_empty_answer_scores_zero contexts question :
  let reference :=
    "MOEMS is for grades 4-8, 5 problems, 30 minutes, calculators prohibited" in
  let run := {| outputs_answer := Some ""; outputs_contexts := contexts |} in
  let example :=
    {| inputs_question := question; outputs_reference := Some reference |} in
  key_terms_of (Py.lower reference)
  = ["moems"; "grade"; "30"; "5"; "calculator"; "prohibit"] ∧
  (5 <= length (key_terms_of (Py.lower reference)))%nat ∧
  count_in (key_terms_of (Py.lower reference)) (Py.lower "") = 0%nat ∧
  ∃ fb, answer_correctness_evaluator run example = Py.Ok fb ∧
        (score fb == 0)%Q ∧
        comment fb = Text "Matched 0/6 key terms from reference".
Proof.
  cbv zeta. split; [vm_compute; reflexivity|].
  split; [vm_compute; lia|]. split; [vm_compute; reflexivity|].
  eexists. split; [vm_compute; reflexivity|].
  split; [vm_compute; reflexivity|reflexivity].
Qed.

(** C7: both evaluators return a score in the closed interval [0,1]:
    [answer_correctness_evaluator] for every run and example, and
    [context_relevancy_evaluator] for every run and every example that
    has a question. *)
Theorem C7_scores_in_unit_interval :
  (∀ run example,
     ∃ fb, answer_correctness_evaluator run example = Py.Ok fb ∧
           in_unit (score fb)) ∧
  (∀ run example question,
     inputs_question example = Some question →
     ∃ fb, context_relevancy_evaluator run example = Py.Ok fb ∧
           in_unit (score fb)).
Proof.
  split.
  - intros run example.
    destruct (answer_correctness_score run example) as (fb & Hfb & H).
    exists fb. split; [exact Hfb|].
    destruct (key_terms_of _).
    + unfold in_unit. rewrite H. split; discriminate.
    + apply H.
  - intros run example question Hq.
    unfold context_relevancy_evaluator. rewrite Hq.
    cbn [getitem mbind Py.result_bind Py.bind mret Py.result_ret].
    destruct (default [] (outputs_contexts run)) as [|ctx contexts] eqn:E.
    + eexists. split; [reflexivity|]. cbn [score]. split; discriminate.
    + destruct (relevance_loop_in_unit (Py.lower question) (ctx :: contexts) [])
        as (l & Hl & Hu & Hlen); [constructor|].
      rewrite Hl. cbn [mbind Py.result_bind Py.bind].
      destruct (mean_in_unit l Hu) as (x & Hx & Hxu).
      { intros ->. cbn in Hlen. lia. }
      rewrite Hx. cbn [mbind Py.result_bind Py.bind mret Py.result_ret].
      eexists. split; [reflexivity|]. exact Hxu.
Qed.

Lemma C7_scores_in_unit_interval_witness :
  ∃ fb,
    context_relevancy_evaluator
      {| outputs_answer := None;
         outputs_contexts := Some ["MOEMS is designed for grades 4-8."] |}
      {| inputs_question := Some "Which grades is MOEMS designed for?";
         outputs_reference := None |}
    = Py.Ok fb ∧ in_unit (score fb).
Proof.
  exact (proj2 C7_scores_in_unit_interval
           {| outputs_answer := None;
              outputs_contexts := Some ["MOEMS is designed for grades 4-8."] |}
           {| inputs_question := Some "Which grades is MOEMS designed for?";
              outputs_reference := None |}
           "Which grades is MOEMS designed for?" eq_refl).
Defined.

(** C9: a reference that contains "minutes" contributes the key term
    "30", whether or not it contains "30"; when that is its only key
    term the score is 1 if the produced answer contains "30" and 0
    otherwise; so an answer that says "minutes" but not "30" scores 0
    against such a reference. *)
Theorem C9_minutes_marker_is_30 :
  (∀ reference,
     "minutes" isin reference = true → In "30" (key_terms_of reference)) ∧
  (∀ produced reference contexts question,
     "minutes" isin Py.lower reference = true →
     "30" isin Py.lower reference = false →
     key_terms_of (Py.lower reference) = ["30"] →
     ∃ fb,
       answer_correctness_evaluator
         {| outputs_answer := Some produced; outputs_contexts := contexts |}
         {| inputs_question := question; outputs_reference := Some reference |}
       = Py.Ok fb ∧
       (score fb == if "30" isin Py.lower produced then 1 else 0)%Q) ∧
  (∃ produced reference,
     "minutes" isin Py.lower produced = true ∧
     "30" isin Py.lower produced = false ∧
     "minutes" isin Py.lower reference = true ∧
     "30" isin Py.lower reference = false ∧
     key_terms_of (Py.lower reference) = ["30"] ∧
     ∃ fb,
       answer_correctness_evaluator
         {| outputs_answer := Some produced; outputs_contexts := None |}
         {| inputs_question := None; outputs_reference := Some reference |}
       = Py.Ok fb ∧
       (score fb == 0)%Q ∧ ¬ (score fb == 1)%Q).
Proof.
  split; [|split].
  - intros reference H. unfold key_terms_of. cbv zeta.
    apply in_append_if, in_append_if, in_append_if, in_append_if, in_append_if2.
    rewrite H, orb_true_r. apply in_or_app. right. left. reflexivity.
  - intros produced reference contexts question _ _ Hk.
    destruct (answer_correctness_score
                {| outputs_answer := Some produced; outputs_contexts := contexts |}
                {| inputs_question := question;
                   outputs_reference := Some reference |})
      as (fb & Hfb & H).
    exists fb. split; [exact Hfb|].
    cbn [outputs_reference outputs_answer from_option id] in H. rewrite Hk in H.
    destruct H as (_ & H0 & H1). unfold count_in in H0, H1.
    cbn [List.filter length] in H0, H1.
    destruct ("30" isin Py.lower produced); [apply H1|apply H0]; reflexivity.
  - exists "The contest lasts thirty minutes.", "Thirty minutes in total.".
    repeat (split; [vm_compute; reflexivity|]).
    eexists. split; [vm_compute; reflexivity|].
    split; [vm_compute; reflexivity|vm_compute; discriminate].
Qed.

Lemma C9_minutes_marker_is_30_witness :
  ∃ fb,
    answer_correctness_evaluator
      {| outputs_answer := Some "You get thirty minutes.";
         outputs_contexts := None |}
      {| inputs_question := None;
         outputs_reference := Some "Thirty minutes in total." |}
    = Py.Ok fb ∧ (score fb == 0)%Q.
Proof.
  exact (proj1 (proj2 C9_minutes_marker_is_30)
           "You get thirty minutes." "Thirty minutes in total." None None
           eq_refl eq_refl eq_refl).
Defined.

(** C10: the question is split on whitespace only, so "What is MOEMS?"
    leaves the single key word "moems?" with its question mark; a
    context that contains "moems" but not "moems?" gets relevance 0, and
    when every context is of that kind the overall score is 0. *)
Theorem C10_punctuation_stays_on_tokens :
  Py.split (Py.lower "What is MOEMS?") = ["what"; "is"; "moems?"] ∧
  question_words_of (Py.lower "What is MOEMS?") = ["moems?"] ∧
  (∀ run example contexts,
     inputs_question example = Some "What is MOEMS?" →
     outputs_contexts run = Some contexts →
     Forall (fun ctx => "moems" isin Py.lower ctx = true
                        ∧ "moems?" isin Py.lower ctx = false) contexts →
     (∃ l, relevance_loop (Py.lower "What is MOEMS?") contexts [] = Py.Ok l
           ∧ length l = length contexts
           ∧ Forall (fun r => r == 0)%Q l) ∧
     (∃ fb, context_relevancy_evaluator run example = Py.Ok fb
            ∧ (score fb == 0)%Q)).
Proof.
  assert (Hqw : question_words_of (Py.lower "What is MOEMS?") = ["moems?"])
    by (vm_compute; reflexivity).
  split; [vm_compute; reflexivity|]. split; [exact Hqw|].
  intros run example contexts Hq Hc Hall.
  destruct (relevance_loop_zero (Py.lower "What is MOEMS?") contexts [])
    as (l & Hl & Hz & Hlen).
  { rewrite Hqw. discriminate. }
  { rewrite Hqw. eapply Forall_impl; [exact Hall|].
    intros ctx [_ Hno]. constructor; [exact Hno|constructor]. }
  { constructor. }
  split.
  - exists l. split; [exact Hl|]. split; [exact Hlen|exact Hz].
  - unfold context_relevancy_evaluator. rewrite Hq, Hc.
    cbn [getitem from_option id mbind Py.result_bind Py.bind mret Py.result_ret].
    destruct contexts as [|ctx contexts].
    + eexists. split; reflexivity.
    + rewrite Hl. cbn [mbind Py.result_bind Py.bind].
      rewrite truediv_pos by (apply of_nat_pos; rewrite Hlen; cbn; lia).
      cbn [mbind Py.result_bind Py.bind mret Py.result_ret].
      eexists. split; [reflexivity|]. cbn [score].
      unfold Qdiv. rewrite (sum_zero l Hz). apply Qmult_0_l.
Qed.

Lemma C10_punctuation_stays_on_tokens_witness :
  ∃ fb,
    context_relevancy_evaluator
      {| outputs_answer := None;
         outputs_contexts :=
           Some (q_retrieved_contexts
                   (response_of "What is MOEMS?" (topic_of "What is MOEMS?"))) |}
      {| inputs_question := Some "What is MOEMS?"; outputs_reference := None |}
    = Py.Ok fb ∧ (score fb == 0)%Q.
Proof.
  refine (proj2 (proj2 (proj2 C10_punctuation_stays_on_tokens)
            {| outputs_answer := None;
               outputs_contexts :=
                 Some (q_retrieved_contexts
                         (response_of "What is MOEMS?"
                            (topic_of "What is MOEMS?"))) |}
            {| inputs_question := Some "What is MOEMS?";
               outputs_reference := None |}
            _ eq_refl eq_refl _)).
  vm_compute. repeat constructor.
Defined.

(** ** Facts about the built-ins *)

Lemma lower_char_idem c : Py.lower_char (Py.lower_char c) = Py.lower_char c.
Proof. destruct c as [[] [] [] [] [] [] [] []]; reflexivity. Qed.

Lemma lower_idem s : Py.lower (Py.lower s) = Py.lower s.
Proof.
  induction s as [|c s IH]; [reflexivity|].
  change (String (Py.lower_char (Py.lower_char c)) (Py.lower (Py.lower s))
          = String (Py.lower_char c) (Py.lower s)).
  now rewrite lower_char_idem, IH.
Qed.

Lemma lower_app a b : Py.lower (a +:+ b) = Py.lower a +:+ Py.lower b.
Proof.
  induction a as [|c a IH]; [reflexivity|].
  change (String (Py.lower_char c) (Py.lower (a +:+ b))
          = String (Py.lower_char c) (Py.lower a +:+ Py.lower b)).
  now rewrite IH.
Qed.

Lemma startswith_app sub s t :
  Py.startswith sub s = true → Py.startswith sub (s +:+ t) = true.
Proof.
  revert s. induction sub as [|a sub IH]; intros s H; [reflexivity|].
  destruct s as [|b s]; [discriminate H|].
  change (Ascii.eqb a b && Py.startswith sub s = true) in H.
  change (Ascii.eqb a b && Py.startswith sub (s +:+ t) = true).
  apply andb_prop in H as [Hab Hs]. now rewrite Hab, (IH _ Hs).
Qed.

Lemma contains_cons sub c s :
  Py.contains sub (String c s)
  = Py.startswith sub (String c s) || Py.contains sub s.
Proof. reflexivity. Qed.

Lemma contains_app_r sub s t :
  sub isin s = true → sub isin (s +:+ t) = true.
Proof.
  induction s as [|c s IH]; intros H.
  - cbn in H. rewrite orb_false_r in H.
    destruct sub; [|discriminate H]. destruct t; reflexivity.
  - change (sub isin String c (s +:+ t) = true).
    rewrite contains_cons in *.
    apply orb_prop in H as [H|H].
    + apply (startswith_app _ _ t) in H.
      change (Py.startswith sub (String c (s +:+ t)) = true) in H.
      now rewrite H.
    + rewrite (IH H). apply orb_true_r.
Qed.

Lemma contains_app_l sub p s :
  sub isin s = true → sub isin (p +:+ s) = true.
Proof.
  intros H. induction p as [|c p IH]; [exact H|].
  change (sub isin String c (p +:+ s) = true).
  rewrite contains_cons, IH. apply orb_true_r.
Qed.

Lemma contains_extend sub pre s suf :
  sub isin s = true → sub isin (pre +:+ s +:+ suf) = true.
Proof. intros H. now apply contains_app_l, contains_app_r. Qed.

Lemma contains_lower_extend sub pre s suf :
  sub isin Py.lower s = true →
  sub isin Py.lower (pre +:+ s +:+ suf) = true.
Proof. intros H. rewrite !lower_app. now apply contains_extend. Qed.

Lemma fires_extend phrases pre question suf :
  fires phrases (Py.lower question) = true →
  fires phrases (Py.lower (pre +:+ question +:+ suf)) = true.
Proof.
  unfold fires. rewrite !existsb_exists. intros (p & Hin & Hp).
  exists p. split; [exact Hin|]. now apply contains_lower_extend.
Qed.

(** ** More about the router *)

Lemma find_first_firing rules question_lower :
  List.find (fun rule => fires (fst rule) question_lower) rules
  = rules !! first_firing rules question_lower.
Proof.
  induction rules as [|rule rules IH]; [reflexivity|].
  cbn [List.find first_firing].
  destruct (fires (fst rule) question_lower); [reflexivity|exact IH].
Qed.

Lemma first_firing_extend rules pre question suf :
  (first_firing rules (Py.lower (pre +:+ question +:+ suf))
   <= first_firing rules (Py.lower question))%nat.
Proof.
  induction rules as [|rule rules IH]; [reflexivity|].
  cbn [first_firing].
  destruct (fires (fst rule) (Py.lower question)) eqn:E.
  - now rewrite (fires_extend _ pre _ suf E).
  - destruct (fires (fst rule) (Py.lower (pre +:+ question +:+ suf))); lia.
Qed.

Lemma topic_of_branch question :
  topic_of question = branch_record (rule_index question).
Proof.
  unfold topic_of, route, branch_record, rule_index.
  rewrite find_first_firing.
  destruct (RULES !! _) as [rule|]; reflexivity.
Qed.

(** X1: routing ignores letter case: two questions with the same
    lowercase form get the same answer, sources, document count and
    contexts from [query]; in particular a question and its lowercase
    form do. *)
Theorem query_case_insensitive api_key t :
  (∀ question1 question2,
     Py.lower question1 = Py.lower question2 →
     ∃ resp1 resp2 w1 w2,
       query question1 (fresh api_key t) = (Py.Ok resp1, w1) ∧
       query question2 (fresh api_key t) = (Py.Ok resp2, w2) ∧
       q_answer resp1 = q_answer resp2 ∧
       q_sources resp1 = q_sources resp2 ∧
       q_num_docs_retrieved resp1 = q_num_docs_retrieved resp2 ∧
       q_retrieved_contexts resp1 = q_retrieved_contexts resp2) ∧
  (∀ question,
     fst (query (Py.lower question) (fresh api_key t))
     = Py.Ok (response_of (Py.lower question) (topic_of question))).
Proof.
  assert (H : ∀ q1 q2, Py.lower q1 = Py.lower q2 → topic_of q1 = topic_of q2).
  { intros q1 q2 E. unfold topic_of, route. now rewrite E. }
  split.
  - intros q1 q2 E. eexists _, _, _, _.
    split; [apply query_fresh|]. split; [apply query_fresh|].
    cbn [response_of q_answer q_sources q_num_docs_retrieved q_retrieved_contexts].
    rewrite (H q1 q2 E). repeat split.
  - intros q. rewrite query_fresh. cbn [fst].
    now rewrite (H (Py.lower q) q (lower_idem q)).
Qed.

Lemma query_case_insensitive_witness :
  ∃ resp1 resp2 w1 w2,
    query "HOW IS MOEMS SCORED?" (fresh None 0) = (Py.Ok resp1, w1) ∧
    query "how is moems scored?" (fresh None 0) = (Py.Ok resp2, w2) ∧
    q_answer resp1 = q_answer resp2.
Proof.
  destruct (proj1 (query_case_insensitive None 0)
              "HOW IS MOEMS SCORED?" "how is moems scored?" eq_refl)
    as (resp1 & resp2 & w1 & w2 & H1 & H2 & Ha & _).
  exists resp1, resp2, w1, w2. auto.
Defined.

(** X2: text added before or after a question can only move the match
    to an earlier branch of the chain, never to a later one; so a
    question matched by the first rule keeps its answer whatever is
    added around it. *)
Theorem router_extension_monotone api_key t pre question suf :
  (rule_index (pre +:+ question +:+ suf) <= rule_index question)%nat ∧
  _find_best_match question (fresh api_key t)
  = (Py.Ok (branch_record (rule_index question)), fresh api_key t) ∧
  _find_best_match (pre +:+ question +:+ suf) (fresh api_key t)
  = (Py.Ok (branch_record (rule_index (pre +:+ question +:+ suf))),
     fresh api_key t).
Proof.
  split; [apply first_firing_extend|].
  rewrite !find_best_match_fresh, !topic_of_branch. split; reflexivity.
Qed.

(** X3: the knowledge base has nine entries, and each is what the router
    returns when the entry's own key is asked as the question. *)
Theorem knowledge_base_key_as_question api_key t k r :
  KNOWLEDGE_BASE !! k = Some r →
  _find_best_match k (fresh api_key t) = (Py.Ok r, fresh api_key t)
  ∧ size KNOWLEDGE_BASE = 9%nat.
Proof.
  intros H. split; [|vm_compute; reflexivity].
  rewrite find_best_match_fresh.
  apply elem_of_list_to_map_2, list_elem_of_In in H. cbn [In] in H.
  repeat (destruct H as [[= <- <-]|H]; [vm_compute; reflexivity|]).
  destruct H.
Qed.

Lemma knowledge_base_key_as_question_witness :
  ∃ r, KNOWLEDGE_BASE !! "3rd grader" = Some r ∧
       fst (_find_best_match "3rd grader" (fresh None 0)) = Py.Ok r.
Proof.
  eexists. split; [vm_compute; reflexivity|].
  rewrite (proj1 (knowledge_base_key_as_question None 0 "3rd grader" _
                    ltac:(vm_compute; reflexivity))).
  reflexivity.
Defined.

Lemma topic_of_all (P : Topic → bool) :
  P default_response = true →
  Forall (fun k => P (default default_response (KNOWLEDGE_BASE !! k)) = true)
    (map snd RULES) →
  ∀ question, P (topic_of question) = true.
Proof.
  intros Hd Hk question. unfold topic_of.
  destruct (route question) as [k|] eqn:E; [|exact Hd].
  apply route_key in E. rewrite Forall_forall in Hk.
  now apply Hk, list_elem_of_In.
Qed.

(** X4: whatever the question, the sources of the response are the
    sources named in the metadata of the retrieved documents, in the
    same order; so there are as many sources as documents, one or two. *)
Theorem sources_match_documents api_key t question :
  ∃ r resp w',
    _find_best_match question (fresh api_key t) = (Py.Ok r, fresh api_key t) ∧
    query question (fresh api_key t) = (Py.Ok resp, w') ∧
    q_sources resp = map metadata_source (retrieved_docs r) ∧
    q_num_docs_retrieved resp = length (q_sources resp) ∧
    (q_num_docs_retrieved resp = 1%nat ∨ q_num_docs_retrieved resp = 2%nat).
Proof.
  eexists _, _, _. split; [apply find_best_match_fresh|].
  split; [apply query_fresh|].
  cbn [response_of q_sources q_num_docs_retrieved].
  assert (H : sources_consistent (topic_of question) = true).
  { apply topic_of_all; [vm_compute; reflexivity|].
    repeat constructor. }
  unfold sources_consistent in H. apply andb_prop in H as [Hs Hn].
  apply bool_decide_eq_true in Hs. split; [exact Hs|].
  split; [now rewrite Hs, length_map|].
  apply orb_prop in Hn as [Hn|Hn]; apply Nat.eqb_eq in Hn; auto.
Qed.

(** X5: a question that contains "participate" is never answered from
    the "3rd grader" record, even when it asks about a 3rd grader: it
    takes one of the first three branches, and the answer mentions
    neither "3rd" nor "third". *)
Theorem participate_shadows_third_grader api_key t question :
  "participate" isin Py.lower question = true →
  (rule_index question <= 2)%nat ∧
  ∃ resp w',
    query question (fresh api_key t) = (Py.Ok resp, w') ∧
    "3rd" isin Py.lower (q_answer resp) = false ∧
    "third" isin Py.lower (q_answer resp) = false.
Proof.
  intros H. split.
  - unfold rule_index, RULES. cbn [first_firing fst].
    unfold fires. cbn [existsb]. rewrite H. cbn [orb].
    repeat match goal with
      | |- context [if ?b then _ else _] => destruct b
      end; lia.
  - eexists _, _. split; [apply query_fresh|].
    unfold response_of, topic_of, route, RULES, fires; cbn [q_answer].
    cbn [List.find existsb fst snd fmap option_fmap option_map].
    rewrite H.
    repeat match goal with
      | |- context [Py.contains ?p (Py.lower question)] =>
          destruct (Py.contains p (Py.lower question)); cbn [orb]
      end;
    split; vm_compute; reflexivity.
Qed.

Lemma participate_shadows_third_grader_witness :
  "3rd grade" isin Py.lower "Can a 3rd grader participate?" = true ∧
  ∃ resp w',
    query "Can a 3rd grader participate?" (fresh None 0) = (Py.Ok resp, w') ∧
    "3rd" isin Py.lower (q_answer resp) = false.
Proof.
  split; [reflexivity|].
  destruct (proj2 (participate_shadows_third_grader None 0
                     "Can a 3rd grader participate?" eq_refl))
    as (resp & w' & Hq & H3 & _).
  exists resp, w'. auto.
Defined.

(** X6: every assertion of every test of [tests/test_agent.py] that
    queries the agent holds, for an agent built with or without an API
    key. *)
Theorem test_suite_passes api_key t :
  Forall (fun test => test (fresh api_key t) = true) TestMOEMSAgent.all_tests.
Proof.
  unfold TestMOEMSAgent.all_tests.
  repeat (constructor;
          [unfold TestMOEMSAgent.test_basic_query,
             TestMOEMSAgent.test_moems_definition,
             TestMOEMSAgent.test_structure_query,
             TestMOEMSAgent.test_calculator_query,
             TestMOEMSAgent.test_scoring_query,
             TestMOEMSAgent.test_eligibility_query,
             TestMOEMSAgent.test_third_grader_query,
             TestMOEMSAgent.test_unknown_query,
             TestMOEMSAgent.test_sources_returned,
             TestMOEMSAgent.test_contexts_returned,
             TestMOEMSAgent.asserts;
           rewrite query_fresh; vm_compute; reflexivity|]).
  constructor.
Qed.

(** ** More about the answer evaluator *)

Lemma sublist_append_if (b : bool) (y : string) l M :
  l `sublist_of` M → (if b then l ++ [y] else l) `sublist_of` M ++ [y].
Proof.
  intros H. destruct b; [now apply sublist_app|now apply sublist_inserts_r].
Qed.

Lemma sublist_append_if2 (a b : bool) (y : string) l M :
  l `sublist_of` M →
  (if a then (if b then l ++ [y] else l) else l) `sublist_of` M ++ [y].
Proof.
  intros H. destruct a; [now apply sublist_append_if|now apply sublist_inserts_r].
Qed.

Lemma key_terms_sublist reference :
  key_terms_of reference `sublist_of` MARKERS.
Proof.
  unfold key_terms_of. cbv zeta.
  change MARKERS with
    ((((((((([] : list string) ++ ["moems"]) ++ ["grade"]) ++ ["30"]) ++ ["5"])
         ++ ["calculator"]) ++ ["prohibit"]) ++ ["point"]) ++ ["strateg"]).
  apply sublist_append_if, sublist_append_if, sublist_append_if,
    sublist_append_if, sublist_append_if2, sublist_append_if,
    sublist_append_if, sublist_append_if.
  apply sublist_nil_l.
Qed.

Lemma key_terms_markers reference :
  Forall (fun term => term ∈ MARKERS) (key_terms_of reference).
Proof.
  rewrite Forall_forall. intros term H.
  exact (elem_of_sublist _ _ _ H (key_terms_sublist reference)).
Qed.

Lemma count_in_mono terms text1 text2 :
  Forall (fun term => term isin text1 = true → term isin text2 = true) terms →
  (count_in terms text1 <= count_in terms text2)%nat.
Proof.
  unfold count_in. induction 1 as [|x terms Hx _ IH]; [reflexivity|].
  cbn [List.filter].
  destruct (x isin text1); [rewrite (Hx eq_refl); cbn; lia|].
  destruct (x isin text2); cbn; lia.
Qed.

Lemma count_in_all terms text :
  count_in terms text = length terms ↔
  Forall (fun term => term isin text = true) terms.
Proof.
  unfold count_in. induction terms as [|x terms IH]; cbn [List.filter length].
  - split; [constructor|reflexivity].
  - pose proof (count_in_le terms text) as Hle. unfold count_in in Hle.
    destruct (x isin text) eqn:E; cbn [length].
    + split.
      * intros [= H]. constructor; [exact E|now apply IH].
      * intros H. inversion H; subst. f_equal. now apply IH.
    + split; [lia|]. intros H. inversion H; subst. congruence.
Qed.

(** The value of the score when the reference has a key term. *)
Lemma answer_correctness_ratio run example :
  key_terms_of (Py.lower (default "" (outputs_reference example))) ≠ [] →
  ∃ fb, answer_correctness_evaluator run example = Py.Ok fb ∧
        score fb
        = (Py.of_nat
             (count_in
                (key_terms_of (Py.lower (default "" (outputs_reference example))))
                (Py.lower (default "" (outputs_answer run))))
           / Py.of_nat
               (length
                  (key_terms_of
                     (Py.lower (default "" (outputs_reference example))))))%Q.
Proof.
  intros Hne. unfold answer_correctness_evaluator.
  destruct (key_terms_of _) as [|k ks] eqn:E; [congruence|].
  rewrite truediv_pos by (apply of_nat_pos; cbn; lia).
  cbn [mbind Py.result_bind Py.bind mret Py.result_ret].
  eexists. split; reflexivity.
Qed.

Lemma ratio_le a b n :
  (a <= b)%nat → (0 < n)%nat →
  (Py.of_nat a / Py.of_nat n <= Py.of_nat b / Py.of_nat n)%Q.
Proof.
  intros Hab Hn. unfold Qdiv. apply Qmult_le_compat_r.
  - now apply of_nat_le.
  - apply Qinv_le_0_compat, Qlt_le_weak, of_nat_pos, Hn.
Qed.


(** X7: the key terms collected from a reference are taken from the
    eight markers, each at most once and in the order of the [if]
    statements; so there are at most eight and none is empty. *)
Theorem key_terms_are_markers reference :
  key_terms_of reference `sublist_of` MARKERS ∧
  NoDup (key_terms_of reference) ∧
  (length (key_terms_of reference) <= 8)%nat ∧
  Forall (fun term => term ≠ "") (key_terms_of reference).
Proof.
  pose proof (key_terms_sublist reference) as H.
  split; [exact H|]. split; [|split].
  - refine (sublist_NoDup _ _ _ H). unfold MARKERS.
    apply NoDup_ListNoDup. repeat constructor; cbn; intuition discriminate.
  - apply sublist_length in H. exact H.
  - eapply Forall_impl; [apply key_terms_markers|].
    intros term Hin ->. unfold MARKERS in Hin.
    repeat (apply elem_of_cons in Hin as [Hin|Hin]; [discriminate Hin|]).
    now apply elem_of_nil in Hin.
Qed.

(** X8: padding the produced answer with text before or after it never
    lowers its answer-correctness score. *)
Theorem padding_never_lowers_score contexts question reference produced pre suf :
  ∃ fb1 fb2,
    answer_correctness_evaluator
      {| outputs_answer := Some produced; outputs_contexts := contexts |}
      {| inputs_question := question; outputs_reference := reference |}
    = Py.Ok fb1 ∧
    answer_correctness_evaluator
      {| outputs_answer := Some (pre +:+ produced +:+ suf);
         outputs_contexts := contexts |}
      {| inputs_question := question; outputs_reference := reference |}
    = Py.Ok fb2 ∧
    (score fb1 <= score fb2)%Q.
Proof.
  set (run1 := {| outputs_answer := Some produced; outputs_contexts := contexts |}).
  set (run2 := {| outputs_answer := Some (pre +:+ produced +:+ suf);
                  outputs_contexts := contexts |}).
  set (example := {| inputs_question := question; outputs_reference := reference |}).
  destruct (key_terms_of (Py.lower (default "" (outputs_reference example))))
    as [|k ks] eqn:E.
  - destruct (answer_correctness_score run1 example) as (fb1 & H1 & S1).
    destruct (answer_correctness_score run2 example) as (fb2 & H2 & S2).
    rewrite E in S1, S2. exists fb1, fb2. split; [exact H1|]. split; [exact H2|].
    rewrite S1, S2. apply Qle_refl.
  - destruct (answer_correctness_ratio run1 example) as (fb1 & H1 & S1);
      [rewrite E; discriminate|].
    destruct (answer_correctness_ratio run2 example) as (fb2 & H2 & S2);
      [rewrite E; discriminate|].
    exists fb1, fb2. split; [exact H1|]. split; [exact H2|].
    rewrite S1, S2, E. apply ratio_le; [|cbn; lia].
    apply count_in_mono. apply Forall_forall. intros term _.
    cbn [run1 run2 outputs_answer from_option id]. apply contains_lower_extend.
Qed.

(** X9: the fixed answer that lists the eight markers scores at least as
    much as any other answer against every reference, and scores 1
    whenever the reference has a key term. *)
Theorem keyword_list_maximises_score contexts question reference produced :
  let stuffed := "moems grade 30 5 calculator prohibit point strateg" in
  let example :=
    {| inputs_question := question; outputs_reference := reference |} in
  ∃ fb fb',
    answer_correctness_evaluator
      {| outputs_answer := produced; outputs_contexts := contexts |} example
    = Py.Ok fb ∧
    answer_correctness_evaluator
      {| outputs_answer := Some stuffed; outputs_contexts := contexts |} example
    = Py.Ok fb' ∧
    (score fb <= score fb')%Q ∧
    (key_terms_of (Py.lower (default "" reference)) ≠ [] → score fb' == 1)%Q.
Proof.
  intros stuffed example.
  set (run := {| outputs_answer := produced; outputs_contexts := contexts |}).
  set (run' := {| outputs_answer := Some stuffed; outputs_contexts := contexts |}).
  destruct (answer_correctness_score run example) as (fb & H1 & S1).
  destruct (answer_correctness_score run' example) as (fb' & H2 & S2).
  exists fb, fb'. split; [exact H1|]. split; [exact H2|].
  cbn [example outputs_reference] in S1, S2.
  destruct (key_terms_of (Py.lower (default "" reference))) as [|k ks] eqn:E.
  - split; [|congruence]. rewrite S1, S2. apply Qle_refl.
  - cbv zeta in S1, S2. destruct S1 as ((_ & Hle) & _). destruct S2 as (_ & _ & Hone).
    assert (Hall : (score fb' == 1)%Q).
    { apply Hone, count_in_all. rewrite <- E.
      eapply Forall_impl; [apply key_terms_markers|].
      intros term Hin. unfold MARKERS in Hin.
      repeat (apply elem_of_cons in Hin as [->|Hin]; [reflexivity|]).
      now apply elem_of_nil in Hin. }
    split; [now rewrite Hall|intros _; exact Hall].
Qed.

(** X10: an absent or empty answer scores 0 against every reference that
    has a key term; and against a reference with none, an absent
    reference included, every answer scores 0.7. *)
Theorem empty_answer_and_empty_reference contexts question :
  (∀ produced reference,
     (produced = None ∨ produced = Some "") →
     key_terms_of (Py.lower (default "" reference)) ≠ [] →
     ∃ fb,
       answer_correctness_evaluator
         {| outputs_answer := produced; outputs_contexts := contexts |}
         {| inputs_question := question; outputs_reference := reference |}
       = Py.Ok fb ∧ (score fb == 0)%Q) ∧
  (∀ produced reference,
     key_terms_of (Py.lower (default "" reference)) = [] →
     ∃ fb,
       answer_correctness_evaluator
         {| outputs_answer := produced; outputs_contexts := contexts |}
         {| inputs_question := question; outputs_reference := reference |}
       = Py.Ok fb ∧ (score fb == 7 # 10)%Q) ∧
  key_terms_of (Py.lower (default "" None)) = [].
Proof.
  split; [|split; [|reflexivity]].
  - intros produced reference Hp Hne.
    destruct (answer_correctness_score
                {| outputs_answer := produced; outputs_contexts := contexts |}
                {| inputs_question := question; outputs_reference := reference |})
      as (fb & H & S).
    exists fb. split; [exact H|]. cbn [outputs_reference outputs_answer] in S.
    destruct (key_terms_of (Py.lower (default "" reference))) as [|k ks] eqn:E;
      [congruence|].
    cbv zeta in S. destruct S as (_ & Hzero & _). apply Hzero.
    apply count_in_none. rewrite <- E.
    eapply Forall_impl; [apply key_terms_markers|].
    intros term Hin. unfold MARKERS in Hin.
    assert (Hl : Py.lower (default "" produced) = "")
      by (destruct Hp as [->| ->]; reflexivity).
    rewrite Hl.
    repeat (apply elem_of_cons in Hin as [->|Hin]; [reflexivity|]).
    now apply elem_of_nil in Hin.
  - intros produced reference E.
    destruct (answer_correctness_score
                {| outputs_answer := produced; outputs_contexts := contexts |}
                {| inputs_question := question; outputs_reference := reference |})
      as (fb & H & S).
    exists fb. split; [exact H|]. cbn [outputs_reference] in S.
    now rewrite E in S.
Qed.

Lemma empty_answer_and_empty_reference_witness :
  ∃ fb,
    answer_correctness_evaluator
      {| outputs_answer := None; outputs_contexts := None |}
      {| inputs_question := None;
         outputs_reference := Some "Each problem is worth 1 point." |}
    = Py.Ok fb ∧ (score fb == 0)%Q.
Proof.
  apply (proj1 (empty_answer_and_empty_reference None None)
           None (Some "Each problem is worth 1 point.")).
  - left. reflexivity.
  - vm_compute. discriminate.
Defined.






(** ** More about the context evaluator *)

Lemma eqb_length a b : String.eqb a b = true → String.length a = String.length b.
Proof. intros H. apply String.eqb_eq in H. now subst. Qed.

Lemma relevance_loop_default question contexts : ∀ relevance_scores,
  question_words_of question = [] →
  relevance_loop question contexts relevance_scores
  = Py.Ok (relevance_scores ++ repeat (1 # 2)%Q (length contexts)).
Proof.
  induction contexts as [|ctx contexts IH]; intros acc E.
  - cbn. now rewrite app_nil_r.
  - cbn [relevance_loop length repeat]. rewrite E, (IH _ E).
    now rewrite <- app_assoc.
Qed.

Lemma sum_from_repeat h n : ∀ a,
  (fold_left Qplus (repeat h n) a == a + Py.of_nat n * h)%Q.
Proof.
  induction n as [|n IH]; intros a.
  - cbn. change (Py.of_nat 0) with 0%Q. ring.
  - cbn [repeat fold_left]. rewrite IH, of_nat_S. ring.
Qed.

(** X12: when every word of the question has at most three characters
    or is one of the stop words, and there is at least one context, the
    context-relevancy score is 0.5 whatever the contexts say. *)
Theorem no_key_words_scores_half run example question contexts :
  inputs_question example = Some question →
  outputs_contexts run = Some contexts →
  contexts ≠ [] →
  Forall (fun w => (String.length w <= 3)%nat ∨ In w STOP_WORDS)
    (Py.split (Py.lower question)) →
  ∃ fb, context_relevancy_evaluator run example = Py.Ok fb ∧
        (score fb == 1 # 2)%Q.
Proof.
  intros Hq Hc Hne Hall.
  assert (E : question_words_of (Py.lower question) = []).
  { unfold question_words_of.
    induction Hall as [|w ws Hw _ IH]; [reflexivity|].
    cbn [List.filter]. rewrite IH.
    destruct Hw as [Hw|Hw].
    - apply Nat.ltb_ge in Hw. now rewrite Hw.
    - assert (Hm : Py.mem w STOP_WORDS = true).
      { unfold Py.mem. apply existsb_exists. exists w.
        split; [exact Hw|apply String.eqb_refl]. }
      rewrite Hm. now rewrite andb_false_r. }
  unfold context_relevancy_evaluator. rewrite Hq, Hc.
  cbn [getitem from_option id mbind Py.result_bind Py.bind mret Py.result_ret].
  destruct contexts as [|ctx contexts]; [congruence|].
  rewrite (relevance_loop_default _ _ [] E).
  cbn [app mbind Py.result_bind Py.bind].
  rewrite truediv_pos by (apply of_nat_pos; rewrite repeat_length; cbn; lia).
  cbn [mbind Py.result_bind Py.bind mret Py.result_ret].
  eexists. split; [reflexivity|]. cbn [score].
  unfold Py.sum. rewrite sum_from_repeat, repeat_length.
  pose proof (of_nat_pos (length (ctx :: contexts)) ltac:(cbn; lia)) as Hpos.
  field. intros Hz. rewrite Hz in Hpos. now apply Qlt_irrefl in Hpos.
Qed.

Lemma no_key_words_scores_half_witness :
  ∃ fb,
    context_relevancy_evaluator
      {| outputs_answer := None;
         outputs_contexts := Some ["MOEMS is designed for grades 4-8."] |}
      {| inputs_question := Some "Who can do it?"; outputs_reference := None |}
    = Py.Ok fb ∧ (score fb == 1 # 2)%Q.
Proof.
  apply (no_key_words_scores_half
           {| outputs_answer := None;
              outputs_contexts := Some ["MOEMS is designed for grades 4-8."] |}
           {| inputs_question := Some "Who can do it?";
              outputs_reference := None |}
           "Who can do it?"
           ["MOEMS is designed for grades 4-8."] eq_refl eq_refl).
  - discriminate.
  - vm_compute. repeat constructor.
Defined.

(** X13: [context_relevancy_evaluator] looks the question up before it
    looks at the contexts: an example without a question raises
    [KeyError] even when nothing was retrieved; with a question, absent
    or empty contexts give the score 0 and the comment "No contexts
    retrieved". *)
Theorem context_evaluator_missing_keys run example :
  (inputs_question example = None →
   context_relevancy_evaluator run example = Py.Raise (Py.KeyError "question")) ∧
  (∀ question,
     inputs_question example = Some question →
     outputs_contexts run = None ∨ outputs_contexts run = Some [] →
     context_relevancy_evaluator run example
     = Py.Ok {| key := "context_relevancy";
                score := 0;
                comment := Text "No contexts retrieved" |}).
Proof.
  unfold context_relevancy_evaluator. split.
  - intros ->. reflexivity.
  - intros question -> [-> | ->]; reflexivity.
Qed.

Lemma context_evaluator_missing_keys_witness :
  context_relevancy_evaluator
    {| outputs_answer := None; outputs_contexts := None |}
    {| inputs_question := None; outputs_reference := None |}
  = Py.Raise (Py.KeyError "question").
Proof.
  exact (proj1 (context_evaluator_missing_keys
                  {| outputs_answer := None; outputs_contexts := None |}
                  {| inputs_question := None; outputs_reference := None |})
           eq_refl).
Defined.

(** X14: six of the eleven stop words can never matter: "who", "how",
    "can", "the", "is" and "are" have at most three characters, and
    words that short are dropped by the length test; the key words of a
    question are the same with the five longer stop words alone. *)
Theorem short_stop_words_are_dead question :
  question_words_of question
  = List.filter
      (fun w => (3 <? String.length w)%nat
                && negb (Py.mem w ["what"; "when"; "where"; "does"; "should"]))
      (Py.split question).
Proof.
  unfold question_words_of. apply filter_ext. intros w.
  destruct (3 <? String.length w)%nat eqn:E; [|reflexivity].
  apply Nat.ltb_lt in E. cbn [andb]. f_equal.
  unfold Py.mem, STOP_WORDS. cbn [existsb].
  repeat match goal with
    | |- context [String.eqb w ?x] =>
        lazymatch eval cbv in (String.length x <=? 3)%nat with
        | true =>
            let H := fresh in
            destruct (String.eqb w x) eqn:H;
            [apply eqb_length in H; cbn in H; lia|]
        end
    end.
  cbn [orb]. reflexivity.
Qed.

(** ** The prediction function and the evaluation dataset *)

Lemma answer_score_in_unit run example :
  ∃ fb, answer_correctness_evaluator run example = Py.Ok fb ∧
        in_unit (score fb).
Proof.
  destruct (answer_correctness_score run example) as (fb & Hfb & H).
  exists fb. split; [exact Hfb|].
  destruct (key_terms_of _).
  - unfold in_unit. rewrite H. split; discriminate.
  - apply H.
Qed.

Lemma predict_fresh api_key t question :
  predict (Some question) (fresh api_key t)
  = (Py.Ok {| outputs_answer := Some (answer (topic_of question));
              outputs_contexts :=
                Some (map page_content (retrieved_docs (topic_of question))) |},
     after_query (fresh api_key t)).
Proof.
  unfold predict, lift, getitem, mbind, M_bind, bind, mret, M_ret, ret,
    Py.result_ret.
  rewrite query_fresh. reflexivity.
Qed.

Lemma context_relevancy_mean run example question contexts :
  inputs_question example = Some question →
  outputs_contexts run = Some contexts →
  contexts ≠ [] →
  ∃ fb, context_relevancy_evaluator run example = Py.Ok fb ∧
        in_unit (score fb) ∧
        comment fb
        = Text2f ("Average relevancy across "
                  +:+ Py.str (length contexts) +:+ " contexts: ") (score fb).
Proof.
  intros Hq Hc Hne. unfold context_relevancy_evaluator. rewrite Hq, Hc.
  cbn [getitem from_option id mbind Py.result_bind Py.bind mret Py.result_ret].
  destruct contexts as [|ctx contexts]; [congruence|].
  destruct (relevance_loop_in_unit (Py.lower question) (ctx :: contexts) [])
    as (l & Hl & Hu & Hlen); [constructor|].
  rewrite Hl. cbn [mbind Py.result_bind Py.bind].
  destruct (mean_in_unit l Hu) as (x & Hx & Hxu).
  { intros ->. cbn in Hlen. lia. }
  rewrite Hx. cbn [mbind Py.result_bind Py.bind mret Py.result_ret].
  eexists. split; [reflexivity|]. split; [exact Hxu|reflexivity].
Qed.

(** X15: [predict] followed by the two evaluators never fails for an
    input that has a question: the run it returns has an answer and at
    least one context, so the context evaluator always takes the mean
    and never reports "No contexts retrieved", and both scores are in
    [0,1]; an input without a question raises [KeyError] before the
    agent is called. *)
Theorem predict_then_evaluate api_key t question reference :
  predict None (fresh api_key t)
  = (Py.Raise (Py.KeyError "question"), fresh api_key t) ∧
  ∃ run w' produced contexts fb1 fb2,
    predict (Some question) (fresh api_key t) = (Py.Ok run, w') ∧
    self w' = init api_key ∧
    outputs_answer run = Some produced ∧
    outputs_contexts run = Some contexts ∧
    contexts ≠ [] ∧
    answer_correctness_evaluator run
      {| inputs_question := Some question; outputs_reference := reference |}
    = Py.Ok fb1 ∧
    in_unit (score fb1) ∧
    context_relevancy_evaluator run
      {| inputs_question := Some question; outputs_reference := reference |}
    = Py.Ok fb2 ∧
    in_unit (score fb2) ∧
    comment fb2
    = Text2f ("Average relevancy across "
              +:+ Py.str (length contexts) +:+ " contexts: ") (score fb2).
Proof.
  split; [reflexivity|].
  set (run := {| outputs_answer := Some (answer (topic_of question));
                 outputs_contexts :=
                   Some (map page_content (retrieved_docs (topic_of question))) |}).
  set (example := {| inputs_question := Some question;
                     outputs_reference := reference |}).
  assert (Hne : map page_content (retrieved_docs (topic_of question)) ≠ []).
  { pose proof (topic_of_well_formed question) as Hwf. unfold well_formed in Hwf.
    apply andb_prop in Hwf as [_ Hd]. apply Nat.ltb_lt in Hd.
    intros E. apply (f_equal length) in E. rewrite length_map in E.
    cbn in E. lia. }
  destruct (answer_score_in_unit run example) as (fb1 & H1 & U1).
  destruct (context_relevancy_mean run example question _ eq_refl eq_refl Hne)
    as (fb2 & H2 & U2 & Hcomment).
  exists run, (after_query (fresh api_key t)), (answer (topic_of question)),
    (map page_content (retrieved_docs (topic_of question))), fb1, fb2.
  split; [apply predict_fresh|]. repeat (split; [first [reflexivity|assumption]|]).
  exact Hcomment.
Qed.

(** X16: on the eight examples of [EVALUATION_EXAMPLES], [predict]
    followed by the two evaluators gives: answer correctness 1 for seven
    examples and the default 0.7 for the strategies example, whose
    reference has no key term; context relevancy 0, 1/3, 1/2, 0, 1/3,
    1/6, 1/4 and 1/3. *)
Theorem evaluation_dataset_scores api_key t :
  Forall2
    (fun ex expected =>
       ∃ run w' fb1 fb2,
         predict (inputs_question (create_example ex)) (fresh api_key t)
         = (Py.Ok run, w') ∧
         answer_correctness_evaluator run (create_example ex) = Py.Ok fb1 ∧
         context_relevancy_evaluator run (create_example ex) = Py.Ok fb2 ∧
         (score fb1 == fst expected)%Q ∧
         (score fb2 == snd expected)%Q)
    EVALUATION_EXAMPLES
    [ (1, 0); (1, 1 # 3); (1, 1 # 2); (1, 0);
      (1, 1 # 3); (1, 1 # 6); (7 # 10, 1 # 4); (1, 1 # 3) ]%Q.
Proof.
  unfold EVALUATION_EXAMPLES.
  repeat (constructor;
          [eexists _, _, _, _;
           split; [apply predict_fresh|];
           split; [vm_compute; reflexivity|];
           split; [vm_compute; reflexivity|];
           split; vm_compute; reflexivity|]).
  constructor.
Qed.

(** ** The scripts: [confirm_action] and [run_interactive_mode] *)

Lemma isspace_lower c : Py.isspace (Py.lower_char c) = Py.isspace c.
Proof. destruct c as [[] [] [] [] [] [] [] []]; reflexivity. Qed.

Lemma lower_cons c s :
  Py.lower (String c s) = String (Py.lower_char c) (Py.lower s).
Proof. reflexivity. Qed.

Lemma lstrip_cons c s :
  Str.lstrip (String c s) = if Py.isspace c then Str.lstrip s else String c s.
Proof. reflexivity. Qed.

Lemma rstrip_cons c s :
  Str.rstrip (String c s)
  = match Str.rstrip s with
    | EmptyString => if Py.isspace c then EmptyString else String c EmptyString
    | t' => String c t'
    end.
Proof. reflexivity. Qed.

Lemma append_cons c s t : String c s +:+ t = String c (s +:+ t).
Proof. reflexivity. Qed.

Lemma all_space_cons c s : all_space (String c s) = Py.isspace c && all_space s.
Proof. reflexivity. Qed.

Lemma lstrip_all_space s : all_space s = true → Str.lstrip s = "".
Proof.
  induction s as [|c s IH]; [reflexivity|].
  rewrite all_space_cons, lstrip_cons. intros [Hc Hs]%andb_prop.
  rewrite Hc. now apply IH.
Qed.

Lemma rstrip_all_space s : all_space s = true → Str.rstrip s = "".
Proof.
  induction s as [|c s IH]; [reflexivity|].
  rewrite all_space_cons, rstrip_cons. intros [Hc Hs]%andb_prop.
  now rewrite (IH Hs), Hc.
Qed.

Lemma lstrip_app_space pre s :
  all_space pre = true → Str.lstrip (pre +:+ s) = Str.lstrip s.
Proof.
  induction pre as [|c pre IH]; [reflexivity|].
  rewrite all_space_cons, append_cons, lstrip_cons. intros [Hc Hs]%andb_prop.
  rewrite Hc. now apply IH.
Qed.

Lemma rstrip_app_space s suf :
  all_space suf = true → Str.rstrip (s +:+ suf) = Str.rstrip s.
Proof.
  intros H. induction s as [|c s IH]; [now apply rstrip_all_space|].
  now rewrite append_cons, !rstrip_cons, IH.
Qed.

Lemma strip_app_space s suf :
  all_space suf = true → Str.strip (s +:+ suf) = Str.strip s.
Proof.
  intros H. unfold Str.strip. induction s as [|c s IH].
  - change ("" +:+ suf) with suf. now rewrite (lstrip_all_space _ H).
  - rewrite append_cons, !lstrip_cons. destruct (Py.isspace c); [exact IH|].
    rewrite <- append_cons. now apply rstrip_app_space.
Qed.

Lemma strip_pad pre s suf :
  all_space pre = true → all_space suf = true →
  Str.strip (pre +:+ s +:+ suf) = Str.strip s.
Proof.
  intros Hp Hs. unfold Str.strip. rewrite (lstrip_app_space _ _ Hp).
  now apply strip_app_space.
Qed.

Lemma lstrip_lower s : Str.lstrip (Py.lower s) = Py.lower (Str.lstrip s).
Proof.
  induction s as [|c s IH]; [reflexivity|].
  rewrite lower_cons, !lstrip_cons, isspace_lower.
  destruct (Py.isspace c); [exact IH|reflexivity].
Qed.

Lemma rstrip_lower s : Str.rstrip (Py.lower s) = Py.lower (Str.rstrip s).
Proof.
  induction s as [|c s IH]; [reflexivity|].
  rewrite lower_cons, !rstrip_cons, IH, isspace_lower.
  destruct (Str.rstrip s); [destruct (Py.isspace c)|]; reflexivity.
Qed.

Lemma strip_lower s : Str.strip (Py.lower s) = Py.lower (Str.strip s).
Proof. unfold Str.strip. now rewrite lstrip_lower, rstrip_lower. Qed.

(** X17: [confirm_action] ignores the prompt, whitespace around the
    reply and its letter case; a reply that is not blank decides alone,
    whatever the default: only "y" and "yes" confirm; and an interrupt
    declines even when the default is to confirm. *)
Theorem confirm_action_reads_reply prompt prompt' default :
  (∀ pre line suf,
     all_space pre = true → all_space suf = true →
     confirm_action prompt default (Str.Line (pre +:+ line +:+ suf))
     = confirm_action prompt' default (Str.Line line)) ∧
  (∀ line1 line2,
     Py.lower line1 = Py.lower line2 →
     confirm_action prompt default (Str.Line line1)
     = confirm_action prompt default (Str.Line line2)) ∧
  (∀ line,
     Str.strip line ≠ "" →
     confirm_action prompt default (Str.Line line)
     = Py.mem (Py.lower (Str.strip line)) ["y"; "yes"]) ∧
  (∀ line,
     Str.strip line = "" →
     confirm_action prompt default (Str.Line line) = default) ∧
  confirm_action prompt true Str.KeyboardInterrupt = false.
Proof.
  split; [|split; [|split; [|split]]].
  - intros pre line suf Hp Hs. unfold confirm_action.
    now rewrite (strip_pad _ _ _ Hp Hs).
  - intros line1 line2 E. unfold confirm_action.
    now rewrite <- !strip_lower, E.
  - intros line Hne. unfold confirm_action.
    destruct (Str.strip line) as [|c s] eqn:E; [congruence|reflexivity].
  - intros line E. unfold confirm_action. now rewrite E.
  - reflexivity.
Qed.

Lemma confirm_action_reads_reply_witness :
  confirm_action "Proceed with evaluation?" false (Str.Line "   YES  ") = true ∧
  confirm_action "Proceed with evaluation?" true (Str.Line "ok") = false.
Proof.
  destruct (confirm_action_reads_reply
              "Proceed with evaluation?" "Proceed with evaluation?" false)
    as (Hpad & Hcase & _).
  destruct (confirm_action_reads_reply
              "Proceed with evaluation?" "Proceed with evaluation?" true)
    as (_ & _ & Hdec & _).
  split.
  - refine (eq_trans (Hpad "   " "YES" "  " eq_refl eq_refl) _).
    refine (eq_trans (Hcase "YES" "yes" eq_refl) _). reflexivity.
  - rewrite (Hdec "ok"); [reflexivity|discriminate].
Defined.

Lemma is_command_not_blank line :
  is_command line = true → Str.strip line ≠ "".
Proof. unfold is_command. intros H E. rewrite E in H. discriminate H. Qed.

Lemma interactive_loop_lines api_key lines : ∀ fuel query_count t term rest,
  Forall (fun line => is_command line = false) lines →
  (term = Str.KeyboardInterrupt
   ∨ ∃ line, term = Str.Line line ∧ is_command line = true) →
  (length lines < fuel)%nat →
  ∃ t',
    (t' == t + Py.of_nat (length (asked lines)) * (1 # 2))%Q ∧
    interactive_loop fuel (map Str.Line lines ++ term :: rest) query_count
      (fresh api_key t)
    = Some ((query_count + length (asked lines))%nat, fresh api_key t', rest).
Proof.
  induction lines as [|line lines IH]; intros fuel c t term rest Hall Hterm Hfuel.
  - destruct fuel as [|fuel]; [cbn in Hfuel; lia|].
    exists t. split; [cbn; change (Py.of_nat 0) with 0%Q; ring|].
    cbn [map app asked List.filter length interactive_loop].
    rewrite Nat.add_0_r.
    destruct Hterm as [->|(cmd & -> & Hcmd)]; [reflexivity|].
    pose proof (is_command_not_blank _ Hcmd) as Hnb. unfold is_command in Hcmd.
    destruct (Str.strip cmd) as [|a s] eqn:E; [congruence|].
    destruct (Py.mem (Py.lower (String a s)) ["quit"; "exit"; "q"]);
      [reflexivity|].
    cbn [orb] in Hcmd. now rewrite Hcmd.
  - destruct fuel as [|fuel]; [cbn in Hfuel; lia|].
    cbn [length] in Hfuel. apply Nat.succ_lt_mono in Hfuel.
    inversion Hall as [|? ? Hline Hall']; subst.
    cbn [map app interactive_loop]. unfold asked. cbn [List.filter].
    fold (asked lines).
    destruct (Str.strip line) as [|a s] eqn:E.
    + cbn [String.eqb negb].
      exact (IH fuel c t term rest Hall' Hterm Hfuel).
    + unfold is_command in Hline. rewrite E in Hline.
      apply orb_false_elim in Hline as [Hq He]. rewrite Hq, He.
      rewrite query_fresh.
      change (after_query (fresh api_key t))
        with (fresh api_key (t + settings.SIMULATE_RETRIEVAL_TIME
                             + settings.SIMULATE_GENERATION_TIME)%Q).
      destruct (IH fuel (S c) (t + settings.SIMULATE_RETRIEVAL_TIME
                             + settings.SIMULATE_GENERATION_TIME)%Q
                  term rest Hall' Hterm Hfuel) as (t' & Ht' & Hrun).
      exists t'. split.
      * rewrite Ht'. change (negb (String.eqb (String a s) "")) with true.
        cbn [length]. rewrite of_nat_S.
        unfold settings.SIMULATE_RETRIEVAL_TIME, settings.SIMULATE_GENERATION_TIME.
        ring.
      * rewrite Hrun. change (negb (String.eqb (String a s) "")) with true.
        cbn [length]. do 3 f_equal. lia.
Qed.

(** X18: when the input has a line "quit", "exit", "q", "eval" or
    "evaluation" (in any case, with any surrounding whitespace) or an
    interrupt, [run_interactive_mode] returns at the first of them; the
    count it returns is the number of non-blank lines before it, each of
    which was sent to the agent and cost half a second of simulated
    latency; the agent is the same afterwards and the input after the
    command is left unread. *)
Theorem interactive_mode_counts_questions api_key t lines term rest fuel :
  Forall (fun line => is_command line = false) lines →
  (term = Str.KeyboardInterrupt
   ∨ ∃ line, term = Str.Line line ∧ is_command line = true) →
  (length lines < fuel)%nat →
  ∃ t',
    (t' == t + Py.of_nat (length (asked lines)) * (1 # 2))%Q ∧
    run_interactive_mode fuel (map Str.Line lines ++ term :: rest)
      (fresh api_key t)
    = Some (length (asked lines), fresh api_key t', rest).
Proof.
  intros Hall Hterm Hfuel. unfold run_interactive_mode.
  exact (interactive_loop_lines api_key lines fuel 0 t term rest Hall Hterm Hfuel).
Qed.

Lemma interactive_mode_counts_questions_witness :
  ∃ t',
    run_interactive_mode 4
      [Str.Line "What is MOEMS?"; Str.Line "   "; Str.Line "How is it scored?";
       Str.Line " QUIT "; Str.Line "never read"]
      (fresh None 0)
    = Some (2%nat, fresh None t', [Str.Line "never read"]).
Proof.
  destruct (interactive_mode_counts_questions None 0
              ["What is MOEMS?"; "   "; "How is it scored?"]
              (Str.Line " QUIT ") [Str.Line "never read"] 4)
    as (t' & _ & H).
  - repeat constructor.
  - right. exists " QUIT ". split; reflexivity.
  - cbn. repeat constructor.
  - exists t'. exact H.
Defined.

Lemma interactive_loop_eof : ∀ fuel lines query_count w,
  Forall (fun line => is_command line = false) lines →
  interactive_loop fuel (map Str.Line lines) query_count w = None.
Proof.
  induction fuel as [|fuel IH]; intros lines c w Hall; [reflexivity|].
  destruct lines as [|line lines].
  - exact (IH [] c w Hall).
  - inversion Hall as [|? ? Hline Hall']; subst.
    cbn [map interactive_loop].
    destruct (Str.strip line) as [|a s] eqn:E; [exact (IH lines c w Hall')|].
    unfold is_command in Hline. rewrite E in Hline.
    apply orb_false_elim in Hline as [Hq He]. rewrite Hq, He.
    destruct (query (String a s) w) as [[result|e] w'];
      exact (IH lines _ w' Hall').
Qed.

(** X19: when the input ends without such a line or an interrupt,
    [run_interactive_mode] never returns: at the end of input [input()]
    raises [EOFError], the [except Exception] clause swallows it, and
    the [while True] loop tries again, for ever.  No number of
    iterations reaches a [break], whatever the agent. *)
Theorem interactive_mode_never_returns_at_eof fuel lines w :
  Forall (fun line => is_command line = false) lines →
  run_interactive_mode fuel (map Str.Line lines) w = None.
Proof. intros Hall. now apply interactive_loop_eof. Qed.

Lemma interactive_mode_never_returns_at_eof_witness :
  run_interactive_mode 1000 [Str.Line "What is MOEMS?"] (fresh None 0) = None.
Proof.
  apply (interactive_mode_never_returns_at_eof 1000 ["What is MOEMS?"]).
  repeat constructor.
Defined.

(** ** The pipeline on an arbitrary knowledge base *)

(** X20: for any agent, whatever its knowledge base holds: when no rule
    fires [query] returns the fallback response; when the first rule
    that fires names a key that is present, the response is built from
    that record; when the key is absent, [query] raises [KeyError] with
    that key after the retrieval delay alone, and generation is never
    attempted. *)
Theorem query_on_any_knowledge_base question w :
  match route question with
  | None =>
      query question w
      = (Py.Ok (response_of question default_response), after_query w)
  | Some k =>
      match knowledge_base (self w) !! k with
      | Some r => query question w = (Py.Ok (response_of question r), after_query w)
      | None =>
          query question w
          = (Py.Raise (Py.KeyError k),
             {| self := self w;
                clock := (clock w + settings.SIMULATE_RETRIEVAL_TIME)%Q |})
      end
  end.
Proof.
  rewrite query_unfold, find_best_match_table. unfold match_by_table.
  destruct (route question) as [k|]; [|reflexivity].
  unfold kb_getitem. cbn [self].
  destruct (knowledge_base (self w) !! k); reflexivity.
Qed.

(** ** Context relevancy and longer contexts *)




